(** * LP portal: the static data service and the filter bar

    A shallow embedding of
    - [lwc/lpStaticDataService/lpStaticDataService.js]
      ([getInvestmentVehicles], [getFunds], [getPortfolioMetrics],
      [getFundAllocation], [getPerformanceData]),
    - [lwc/lpFilterBar/lpFilterBar.js]
      ([vehicleOptions], [fundOptions], [handleVehicleChange],
      [handleFundChange], [handleClearFilters], the getters of the
      active filters, [fireFilterChangeEvent], [setFilters]),
    - [lwc/lpPortalDashboard/lpPortalDashboard.js]
      ([loadDashboardData], [handleFilterChange], [refreshData] with
      their timers, [filterStateDescription]),
    - [lwc/lpReportsModal/lpReportsModal.js]
      ([hasActiveFilters], [filterDescription]),
    - the performance chart ([formatDate]) and the navigation sidebar
      ([activeMenuItems], [currentViewLabel] and the click handlers).

    JavaScript numbers are IEEE 754 binary64 values; they are modelled by
    Rocq's primitive floats, whose [+], [*] and [/] are the same correctly
    rounded operations.  Decimal literals of the source are read as the
    nearest binary64 value, as the JavaScript parser does.

    The look-up tables of the service are object literals.  Reading
    [table[key]] on an object literal consults the literal's own
    properties and then [Object.prototype]; both are modelled. *)

From Stdlib Require Import ZArith QArith Qabs Ascii String List Bool Lia.
From Stdlib Require Import Floats Uint63.
Import ListNotations.

Set Warnings "-inexact-float".
Set Implicit Arguments.

Local Open Scope string_scope.
Local Open Scope list_scope.

(** ** JavaScript numbers *)

Module Js.

(** A value that is either a number or [undefined]: what reading a
    numeric property of an arbitrary object yields. *)
Inductive value : Type :=
| Undefined
| Num (x : float).

(** [ToNumber]: [undefined] becomes [NaN]. *)
Definition ToNumber (v : value) : float :=
  match v with
  | Undefined => nan
  | Num x => x
  end.

Definition of_Z (n : Z) : float := PrimFloat.of_uint63 (Uint63.of_Z n).

(** [Math.round x]: the integer closest to [x], a tie going to the one
    nearer to +infinity; NaN, the infinities, the zeros and integral
    values are returned unchanged; a result of zero keeps the sign of
    [x].  The value [x = (-1)^s * m * 2^e] is decoded exactly, and
    [floor (x + 1/2)] is computed over the integers. *)
Definition Math_round (x : float) : float :=
  match Prim2SF x with
  | S754_finite s m e =>
      if (0 <=? e)%Z then x
      else
        let d := (2 ^ (- e))%Z in
        let sm := if s then Z.neg m else Z.pos m in
        let n := ((2 * sm + d) / (2 * d))%Z in
        if (n =? 0)%Z then (if s then (-0)%float else 0%float)
        else if (n <? 0)%Z then (- of_Z (- n))%float
        else of_Z n
  | _ => x
  end.

(** The exact rational value of a finite number. *)
Definition exact_value (x : float) : option Q :=
  match Prim2SF x with
  | S754_zero _ => Some 0%Q
  | S754_finite s m e =>
      let sm := if s then Z.neg m else Z.pos m in
      Some (if (0 <=? e)%Z then inject_Z (sm * 2 ^ e)
            else Qmake sm (Pos.pow 2 (Z.to_pos (- e))))
  | _ => None
  end.

(** The exact sum of a list of finite numbers. *)
Fixpoint exact_sum (xs : list float) : option Q :=
  match xs with
  | [] => Some 0%Q
  | x :: xs' =>
      match exact_value x, exact_sum xs' with
      | Some q, Some r => Some (q + r)%Q
      | _, _ => None
      end
  end.

(** *** Object literals

    [Object.prototype] gives every object literal these properties
    (the standard ones and those of Annex B).  Each of them is a
    function, except [__proto__], an accessor that yields
    [Object.prototype] itself: all are truthy. *)
Definition ObjectPrototype : list string :=
  [ "constructor"; "hasOwnProperty"; "isPrototypeOf";
    "propertyIsEnumerable"; "toLocaleString"; "toString"; "valueOf";
    "__proto__"; "__defineGetter__"; "__defineSetter__";
    "__lookupGetter__"; "__lookupSetter__" ].

Definition inherited (key : string) : bool :=
  existsb (String.eqb key) ObjectPrototype.

(** What [table[key] || dflt] evaluates to when the own properties of
    [table] are records of type [A]: such a record, or a member of
    [Object.prototype]. *)
Inductive member (A : Type) : Type :=
| Own (a : A)
| Inherited (key : string).
Arguments Inherited {A} key.

Fixpoint own {A : Type} (table : list (string * A)) (key : string)
  : option A :=
  match table with
  | [] => None
  | (k, a) :: rest => if String.eqb k key then Some a else own rest key
  end.

(** [table[key]]: [None] is [undefined]. *)
Definition get {A : Type} (table : list (string * A)) (key : string)
  : option (member A) :=
  match own table key with
  | Some a => Some (Own a)
  | None => if inherited key then Some (Inherited key) else None
  end.

(** [x || y] for [x] an object, a function or [undefined]. *)
Definition orElse {A : Type} (x : option (member A)) (y : member A)
  : member A :=
  match x with
  | Some m => m
  | None => y
  end.

(** [o.p] for a numeric field [p] of the records: the members of
    [Object.prototype] have no such property. *)
Definition prop {A : Type} (p : A -> float) (o : member A) : value :=
  match o with
  | Own a => Num (p a)
  | Inherited _ => Undefined
  end.

End Js.

(** ** Dates

    [new Date(year, month, 1)] and [toISOString], after ECMAScript's
    [MakeDay], [UTC], [YearFromTime] and [MonthFromTime].  A time value
    is a number of milliseconds since the epoch.  The day number of a
    civil date and its inverse are computed in closed form over the
    proleptic Gregorian calendar with 400-year eras starting on March 1st.
    Time values are not clipped to the range of [Date]: the dates built
    from the current date of a running clock are within it. *)

Module JsDate.
Local Open Scope Z_scope.

Definition msPerDay : Z := 86400000.

(** Day number of day [date] of month [month] (0-based, any integer:
    the year absorbs the overflow) of year [year]. *)
Definition MakeDay (year month date : Z) : Z :=
  let ym := year + month / 12 in
  let mn := month mod 12 in
  let y := if mn <? 2 then ym - 1 else ym in
  let era := y / 400 in
  let yoe := y - era * 400 in
  let mp := if mn <? 2 then mn + 10 else mn - 2 in
  let doy := (153 * mp + 2) / 5 + (date - 1) in
  let doe := yoe * 365 + yoe / 4 - yoe / 100 + doy in
  era * 146097 + doe - 719468.

(** Year and 0-based month of the day [doe] (0 to 146096) of era [era]. *)
Definition civil_of_era (era doe : Z) : Z * Z :=
  let yoe := (doe - doe / 1460 + doe / 36524 - doe / 146096) / 365 in
  let doy := doe - (365 * yoe + yoe / 4 - yoe / 100) in
  let mp := (5 * doy + 2) / 153 in
  let mn := if mp <? 10 then mp + 2 else mp - 10 in
  let y := yoe + era * 400 in
  (if mn <? 2 then y + 1 else y, mn).

(** Year and 0-based month of a day number. *)
Definition civil (day : Z) : Z * Z :=
  let z := day + 719468 in
  let era := z / 146097 in
  civil_of_era era (z - era * 146097).

Definition YearFromTime (t : Z) : Z := fst (civil (t / msPerDay)).
Definition MonthFromTime (t : Z) : Z := snd (civil (t / msPerDay)).

(** The environment of a call: the local calendar year and month
    of the current instant ([getFullYear], [getMonth]), and the
    offset of local time from UTC, in milliseconds, in force at a
    given local time ([LocalTZA]; positive east of Greenwich). *)
Record Clock : Type := {
  getFullYear : Z;
  getMonth : Z;
  LocalTZA : Z -> Z
}.

(** [new Date(year, month, 1)]: the time value of local midnight.
    A year from 0 to 99 stands for 1900 + year. *)
Definition Date_ymd (c : Clock) (year month date : Z) : Z :=
  let yr := if (0 <=? year) && (year <=? 99) then 1900 + year else year in
  let t := MakeDay yr month date * msPerDay in
  t - LocalTZA c t.

Definition digit (n : Z) : string :=
  String (Ascii.ascii_of_nat (48 + Z.to_nat (n mod 10))) EmptyString.

Fixpoint pad (width : nat) (n : Z) : string :=
  match width with
  | O => EmptyString
  | S w => (pad w (n / 10) ++ digit n)%string
  end.

(** The beginning of [toISOString]: four digits of year, or a sign
    and six digits outside 0..9999, then the month.  What follows lies
    beyond the seven characters that [slice] keeps. *)
Definition toISOString_date (t : Z) : string :=
  let y := YearFromTime t in
  let sign := if y <? 0 then "-"%string else "+"%string in
  let ys :=
    if (0 <=? y) && (y <=? 9999) then pad 4 y
    else String.append sign (pad 6 (Z.abs y)) in
  (ys ++ "-" ++ pad 2 (MonthFromTime t + 1))%string.

(** [s.slice(0, 7)] *)
Definition slice7 (s : string) : string := String.substring 0 7 s.

End JsDate.

(** ** The calendar, checked over one era

    The day of the era of the first of a month depends on the year of
    the era (0 to 399, years starting in March) and on the month
    counted from March.  [firstDayChecks] runs the inverse [civil_of_era]
    on each of these 4800 days and on the day before it. *)

Module Calendar.
Import JsDate.
Local Open Scope Z_scope.

(** Day of the era of the first of month [mp] (from March) of year
    [yoe] of the era, as [MakeDay] computes it. *)
Definition dayOfEra (yoe mp : Z) : Z :=
  yoe * 365 + yoe / 4 - yoe / 100 + ((153 * mp + 2) / 5 + (1 - 1)).

(** The 0-based civil month of month [mp] from March. *)
Definition civilMonth (mp : Z) : Z := if mp <? 10 then mp + 2 else mp - 10.

Definition range (n : nat) : list Z := map Z.of_nat (seq 0 n).

Definition pair_eqb (p q : Z * Z) : bool :=
  (fst p =? fst q) && (snd p =? snd q).

(** The first of the month lies in an era, [civil_of_era] maps it to its
    year and month, and maps the day before to the month before; the one
    first of a month that opens an era is 1 March of year 0 of the era. *)
Definition firstDayCheck (yoe mp : Z) : bool :=
  let doe := dayOfEra yoe mp in
  let mn := civilMonth mp in
  let y := if mn <? 2 then yoe + 1 else yoe in
  (0 <=? doe) && (doe <? 146097)
  && pair_eqb (civil_of_era 0 doe) (y, mn)
  && (if doe =? 0 then (yoe =? 0) && (mp =? 0)
      else pair_eqb (civil_of_era 0 (doe - 1))
                    ((y * 12 + mn - 1) / 12, (y * 12 + mn - 1) mod 12)).

Definition firstDayChecks : bool :=
  forallb (fun yoe => forallb (firstDayCheck yoe) (range 12)) (range 400).

End Calendar.

(** ** The static data service ([lpStaticDataService.js])

    The ids are strings; an argument left out defaults to "all", so the
    functions are modelled on pairs of strings.  None of the functions
    contains an operation that can fail on such arguments (every
    property is read from an object or a function, never from
    [undefined]), so they are total functions to their results. *)

Module Vehicle.
Record t : Type := mk { id : string; name : string }.
End Vehicle.

Module Metrics.
Record t : Type := mk {
  totalCommitments : float;
  totalCalled : float;
  totalDistributions : float;
  estimatedValue : float;
  estimatedTVPI : float
}.
End Metrics.

Module FundBase.
Record t : Type := mk {
  id : string; name : string; vehicleId : string; color : string
}.
End FundBase.

Module Fund.
Record t : Type := mk {
  id : string; name : string; vehicleId : string; color : string;
  allocation : float
}.
End Fund.

Module Allocation.
Record t : Type := mk {
  fundId : string; fundName : string; allocation : float;
  value : Js.value; color : string
}.
End Allocation.

Module Multipliers.
Record t : Type := mk {
  valueMultiplier : float; calledMultiplier : float; tvpiOffset : float
}.
End Multipliers.

Module Point.
(** [date] is [months[i]]: [None] stands for [undefined]. *)
Record t : Type := mk {
  date : option string;
  totalValue : float; capitalCalled : float; tvpi : float
}.
End Point.

Module Service.
Import Js.
Local Open Scope float_scope.

Definition getInvestmentVehicles : list Vehicle.t :=
  [ Vehicle.mk "all" "All Investment Vehicles";
    Vehicle.mk "iv1" "Investment Vehicle 1";
    Vehicle.mk "iv2" "Investment Vehicle 2" ].

Definition fullMetrics : Metrics.t :=
  Metrics.mk 618886450.23 130575585.29 12756900.14 160335942.14 1.33.

Definition fundMetrics : list (string * Metrics.t) :=
  [ ("pbventures",
     Metrics.mk 194628458.10 41065941.08 4012695.04 50425624.79 1.45);
    ("norton",
     Metrics.mk 137997718.40 29118396.52 2844788.43 35754895.27 1.38);
    ("wanye",
     Metrics.mk 116038209.42 24482922.24 2391918.78 30062989.28 1.28);
    ("violet",
     Metrics.mk 87878875.83 18541733.12 1811479.82 22767703.84 1.25);
    ("123",
     Metrics.mk 50129802.47 10576622.39 1033309.11 12987225.32 1.18);
    ("mjk",
     Metrics.mk 32213385.01 6789970.94 662709.96 8337503.64 1.42) ].

Definition vehicleMetrics : list (string * Metrics.t) :=
  [ ("iv1",
     Metrics.mk 364839561.51 77022308.54 7520193.43 94518023.70 1.41);
    ("iv2",
     Metrics.mk 254046887.72 53553277.75 5236707.71 65817918.44 1.26) ].

Definition getPortfolioMetrics (vehicleId fundId : string)
  : member Metrics.t :=
  if negb (fundId =? "all")%string then
    orElse (get fundMetrics fundId) (Own fullMetrics)
  else if negb (vehicleId =? "all")%string then
    orElse (get vehicleMetrics vehicleId) (Own fullMetrics)
  else Own fullMetrics.

Definition fundBaseData : list FundBase.t :=
  [ FundBase.mk "pbventures" "PB Ventures Fund" "iv1" "#1976D2";
    FundBase.mk "norton" "Norton Ventures" "iv1" "#388E3C";
    FundBase.mk "wanye" "Wanye" "iv2" "#F57C00";
    FundBase.mk "violet" "Violet" "iv2" "#7B1FA2";
    FundBase.mk "123" "123" "iv2" "#C2185B";
    FundBase.mk "mjk" "MJK" "iv1" "#0097A7" ].

Definition getFunds : list Fund.t :=
  let totalPortfolioCommitments :=
    prop Metrics.totalCommitments (getPortfolioMetrics "all" "all") in
  map (fun fund =>
         let fundMetrics := getPortfolioMetrics "all" (FundBase.id fund) in
         let allocation :=
           (ToNumber (prop Metrics.totalCommitments fundMetrics)
            / ToNumber totalPortfolioCommitments) * 100 in
         Fund.mk (FundBase.id fund) (FundBase.name fund)
                 (FundBase.vehicleId fund) (FundBase.color fund)
                 (Math_round (allocation * 100) / 100))
      fundBaseData.

Definition getFundAllocation (vehicleId fundId : string)
  : list Allocation.t :=
  let funds := getFunds in
  let filteredFunds :=
    if negb (vehicleId =? "all")%string
    then filter (fun f => (Fund.vehicleId f =? vehicleId)%string) funds
    else funds in
  let selected :=
    if negb (fundId =? "all")%string
    then find (fun f => (Fund.id f =? fundId)%string) funds
    else None in
  match selected with
  | Some selectedFund =>
      let metrics := getPortfolioMetrics vehicleId fundId in
      [ Allocation.mk (Fund.id selectedFund) (Fund.name selectedFund)
                      100
                      (prop Metrics.totalCommitments metrics)
                      (Fund.color selectedFund) ]
  | None =>
      let total :=
        fold_left (fun sum f => sum + Fund.allocation f) filteredFunds 0 in
      map (fun fund =>
             let fundMetrics := getPortfolioMetrics "all" (Fund.id fund) in
             Allocation.mk
               (Fund.id fund) (Fund.name fund)
               (if (vehicleId =? "all")%string then Fund.allocation fund
                else (Fund.allocation fund / total) * 100)
               (prop Metrics.totalCommitments fundMetrics)
               (Fund.color fund))
          filteredFunds
  end.

(** The loop [for (i = 11; i >= 0; i--)] pushing
    [new Date(year, month - i, 1).toISOString().slice(0, 7)]. *)
Definition months (c : JsDate.Clock) : list string :=
  map (fun i =>
         let date :=
           JsDate.Date_ymd c (JsDate.getFullYear c)
                           (JsDate.getMonth c - i) 1 in
         JsDate.slice7 (JsDate.toISOString_date date))
      [11; 10; 9; 8; 7; 6; 5; 4; 3; 2; 1; 0]%Z.

Definition fullPerformance (months : list string) : list Point.t :=
  let m i := nth_error months i in
  [ Point.mk (m 0%nat) 145000000 118000000 1.23;
    Point.mk (m 1%nat) 147500000 120000000 1.24;
    Point.mk (m 2%nat) 150200000 122500000 1.26;
    Point.mk (m 3%nat) 152800000 124000000 1.27;
    Point.mk (m 4%nat) 154500000 125800000 1.28;
    Point.mk (m 5%nat) 156200000 127200000 1.29;
    Point.mk (m 6%nat) 157800000 128500000 1.30;
    Point.mk (m 7%nat) 158900000 129400000 1.31;
    Point.mk (m 8%nat) 159800000 130100000 1.32;
    Point.mk (m 9%nat) 160100000 130400000 1.32;
    Point.mk (m 10%nat) 160200000 130500000 1.33;
    Point.mk (m 11%nat) 160335942.14 130575585.29 1.33 ].

Definition fundMultipliers : list (string * Multipliers.t) :=
  [ ("pbventures", Multipliers.mk 1.09 0.95 0.12);
    ("norton", Multipliers.mk 1.04 0.92 0.05);
    ("wanye", Multipliers.mk 0.96 1.02 (-0.05));
    ("violet", Multipliers.mk 0.94 1.05 (-0.08));
    ("123", Multipliers.mk 0.89 1.08 (-0.15));
    ("mjk", Multipliers.mk 1.07 0.98 0.09) ].

Definition vehicleMultipliers : list (string * Multipliers.t) :=
  [ ("iv1", Multipliers.mk 1.06 0.96 0.08);
    ("iv2", Multipliers.mk 0.95 1.04 (-0.07)) ].

(** The selection of [multipliers] in [getPerformanceData]. *)
Definition selectMultipliers (vehicleId fundId : string)
  : member Multipliers.t :=
  let multipliers := Own (Multipliers.mk 1 1 0) in
  if negb (fundId =? "all")%string then
    orElse (get fundMultipliers fundId) multipliers
  else if negb (vehicleId =? "all")%string then
    orElse (get vehicleMultipliers vehicleId) multipliers
  else multipliers.

(** The body of the final [map] of [getPerformanceData]. *)
Definition adjust (multipliers : member Multipliers.t)
           (dataPoint : Point.t) : Point.t :=
  Point.mk
    (Point.date dataPoint)
    (Math_round (Point.totalValue dataPoint
                 * ToNumber (prop Multipliers.valueMultiplier multipliers)
                 * 100) / 100)
    (Math_round (Point.capitalCalled dataPoint
                 * ToNumber (prop Multipliers.calledMultiplier multipliers)
                 * 100) / 100)
    (Math_round ((Point.tvpi dataPoint
                  + ToNumber (prop Multipliers.tvpiOffset multipliers))
                 * 100) / 100).

(** The clock is the environment read by [new Date()]. *)
Definition getPerformanceData (c : JsDate.Clock)
           (vehicleId fundId : string) : list Point.t :=
  map (adjust (selectMultipliers vehicleId fundId))
      (fullPerformance (months c)).

End Service.

(** ** The filter bar ([lpFilterBar.js])

    The component's state is its two tracked fields.  A handler receives
    [event.detail.value], the value of the option chosen in a dropdown;
    [fireFilterChangeEvent] dispatches a copy of the state and leaves it
    unchanged, so the handlers are modelled as state transformers. *)

Module FilterBar.
Import Service.

Record State : Type := {
  selectedVehicleId : string;
  selectedFundId : string
}.

Definition initial : State :=
  {| selectedVehicleId := "all"; selectedFundId := "all" |}.

(** The [value]s of the getter [vehicleOptions]. *)
Definition vehicleOptions : list string :=
  map Vehicle.id getInvestmentVehicles.

(** The [value]s of the getter [fundOptions]. *)
Definition fundOptions (this : State) : list string :=
  let funds := getFunds in
  let filteredFunds :=
    if negb (selectedVehicleId this =? "all")
    then filter (fun fund => Fund.vehicleId fund =? selectedVehicleId this)
                funds
    else funds in
  "all" :: map Fund.id filteredFunds.

Definition handleVehicleChange (newVehicleId : string) (this : State)
  : State :=
  if negb (newVehicleId =? selectedVehicleId this) then
    let this1 := {| selectedVehicleId := newVehicleId;
                    selectedFundId := selectedFundId this |} in
    if negb (selectedFundId this1 =? "all") then
      let funds := getFunds in
      match find (fun f => Fund.id f =? selectedFundId this1) funds with
      | Some currentFund =>
          if negb (Fund.vehicleId currentFund =? newVehicleId)
             && negb (newVehicleId =? "all")
          then {| selectedVehicleId := newVehicleId;
                  selectedFundId := "all" |}
          else this1
      | None => this1
      end
    else this1
  else this.

Definition handleFundChange (newFundId : string) (this : State) : State :=
  if negb (newFundId =? selectedFundId this) then
    let this1 := {| selectedVehicleId := selectedVehicleId this;
                    selectedFundId := newFundId |} in
    if negb (newFundId =? "all") && (selectedVehicleId this1 =? "all") then
      let funds := getFunds in
      match find (fun f => Fund.id f =? newFundId) funds with
      | Some selectedFund =>
          {| selectedVehicleId := Fund.vehicleId selectedFund;
             selectedFundId := newFundId |}
      | None => this1
      end
    else this1
  else this.

Definition handleClearFilters (this : State) : State :=
  {| selectedVehicleId := "all"; selectedFundId := "all" |}.

(** The operations of the filter bar. *)
Inductive Op : Type :=
| VehicleChange (value : string)
| FundChange (value : string)
| Clear.

Definition run (op : Op) (this : State) : State :=
  match op with
  | VehicleChange v => handleVehicleChange v this
  | FundChange f => handleFundChange f this
  | Clear => handleClearFilters this
  end.

(** A sequence of operations, applied from the left. *)
Definition runs (ops : list Op) (this : State) : State :=
  fold_left (fun s op => run op s) ops this.

(** An operation the rendered dropdowns can produce in a state: the
    chosen value is one of the options on offer. *)
Definition offered (this : State) (op : Op) : Prop :=
  match op with
  | VehicleChange v => In v vehicleOptions
  | FundChange f => In f (fundOptions this)
  | Clear => True
  end.

(** Every operation of the sequence is on offer when it is applied. *)
Fixpoint allOffered (this : State) (ops : list Op) : Prop :=
  match ops with
  | [] => True
  | op :: rest => offered this op /\ allOffered (run op this) rest
  end.

(** An operation whose fund value, if any, is one of the options of the
    fund dropdown in that state.  The value of a vehicle change is left
    free: it may be any string. *)
Definition fundOffered (this : State) (op : Op) : Prop :=
  match op with
  | VehicleChange _ => True
  | FundChange f => In f (fundOptions this)
  | Clear => True
  end.

(** Every fund change of the sequence chooses an option on offer when it
    is applied. *)
Fixpoint allFundsOffered (this : State) (ops : list Op) : Prop :=
  match ops with
  | [] => True
  | op :: rest => fundOffered this op /\ allFundsOffered (run op this) rest
  end.

(** The invariant of FilterState: a selected fund is a fund of the
    table and its vehicle is the vehicle filter, unless that is "all". *)
Definition consistent (this : State) : Prop :=
  selectedFundId this <> "all" ->
  exists fund,
    find (fun f => Fund.id f =? selectedFundId this) getFunds = Some fund
    /\ (Fund.vehicleId fund = selectedVehicleId this
        \/ selectedVehicleId this = "all").

(** The states the dropdowns can lead to: no filter, a vehicle alone,
    a fund alone, a fund with its vehicle. *)
Definition states : list State :=
  initial
    :: map (fun v => {| selectedVehicleId := v; selectedFundId := "all" |})
           ["iv1"; "iv2"]
    ++ map (fun f => {| selectedVehicleId := "all";
                        selectedFundId := Fund.id f |}) getFunds
    ++ map (fun f => {| selectedVehicleId := Fund.vehicleId f;
                        selectedFundId := Fund.id f |}) getFunds.

End FilterBar.

(** The view of a vehicle filter: the branch taken when no fund of the
    table is selected. *)
Definition vehicleView (vehicleId : string) : list Allocation.t :=
  let filteredFunds :=
    if negb (vehicleId =? "all")
    then filter (fun f => Fund.vehicleId f =? vehicleId) Service.getFunds
    else Service.getFunds in
  let total :=
    fold_left (fun sum f => (sum + Fund.allocation f)%float)
              filteredFunds 0%float in
  map (fun fund =>
         Allocation.mk
           (Fund.id fund) (Fund.name fund)
           (if vehicleId =? "all" then Fund.allocation fund
            else (Fund.allocation fund / total * 100)%float)
           (Js.prop Metrics.totalCommitments
                 (Service.getPortfolioMetrics "all" (Fund.id fund)))
           (Fund.color fund))
      filteredFunds.

(** ** The specification's reading of the service

    These definitions follow the words of the specification; the
    theorems below compare them with the embedding of the code. *)

Module Spec.
Import Js Service.

(** An id that is neither the sentinel nor one of [ids]. *)
Definition unrecognized (ids : list string) (x : string) : Prop :=
  x <> "all" /\ ~ In x ids.

Definition vehicleIds : list string := ["iv1"; "iv2"].

Definition fundIds : list string :=
  ["pbventures"; "norton"; "wanye"; "violet"; "123"; "mjk"].

(** getMetrics: the fund filter dominates the vehicle filter; an
    unknown id falls back to the full-portfolio metrics. *)
Definition getMetrics (vehicleId fundId : string) : Metrics.t :=
  if negb (fundId =? "all") then
    match own fundMetrics fundId with
    | Some m => m
    | None => fullMetrics
    end
  else if negb (vehicleId =? "all") then
    match own vehicleMetrics vehicleId with
    | Some m => m
    | None => fullMetrics
    end
  else fullMetrics.

(** The adjustment of getPerformanceSeries, selected with the same
    precedence; an unknown id selects the identity. *)
Definition identity : Multipliers.t := Multipliers.mk 1 1 0.

Definition multipliers (vehicleId fundId : string) : Multipliers.t :=
  if negb (fundId =? "all") then
    match own fundMultipliers fundId with
    | Some m => m
    | None => identity
    end
  else if negb (vehicleId =? "all") then
    match own vehicleMultipliers vehicleId with
    | Some m => m
    | None => identity
    end
  else identity.

(** The trailing window of twelve calendar months, from the current
    month minus 11 through the current month, as YYYY-MM. *)
Definition monthWindow (year month : Z) : list string :=
  map (fun i =>
         let n := (year * 12 + month - i)%Z in
         (JsDate.pad 4 (n / 12) ++ "-" ++ JsDate.pad 2 (n mod 12 + 1))%string)
      [11; 10; 9; 8; 7; 6; 5; 4; 3; 2; 1; 0]%Z.

(** *** Decimal arithmetic

    The figures of the fixture are decimals with two places.
    [hundredths x] is the number of hundredths nearest to the value
    of [x], computed exactly; [decimal n] is the number nearest to
    [n / 100]. *)
Definition hundredths (x : float) : Z :=
  match exact_value x with
  | Some q => ((2 * 100 * Qnum q + Z.pos (Qden q)) / (2 * Z.pos (Qden q)))%Z
  | None => 0%Z
  end.

Definition decimal (n : Z) : float :=
  if (n <? 0)%Z then (- (of_Z (- n) / 100))%float
  else (of_Z n / 100)%float.

(** round2 of a product of two decimals: half-up, to two places. *)
Definition round2_mul (a b : float) : float :=
  decimal ((hundredths a * hundredths b + 50) / 100)%Z.

(** round2 of a sum of two decimals; the sum has two places. *)
Definition round2_add (a b : float) : float :=
  decimal (hundredths a + hundredths b)%Z.

Definition point (m : Multipliers.t) (base : Point.t) : Point.t :=
  Point.mk (Point.date base)
           (round2_mul (Point.totalValue base)
                       (Multipliers.valueMultiplier m))
           (round2_mul (Point.capitalCalled base)
                       (Multipliers.calledMultiplier m))
           (round2_add (Point.tvpi base) (Multipliers.tvpiOffset m)).

End Spec.

(** ** The filter bar: getters, events and [setFilters]

    [fireFilterChangeEvent] dispatches a [filterchange] event whose
    detail is a copy of the two selected ids. *)

Module Detail.
Record t : Type := mk { vehicleId : string; fundId : string }.
End Detail.

Module FilterBarApi.
Import Service FilterBar.

Definition hasActiveFilters (this : State) : bool :=
  negb (selectedVehicleId this =? "all")
  || negb (selectedFundId this =? "all").

Definition activeFilterCount (this : State) : nat :=
  let count := 0%nat in
  let count :=
    if negb (selectedVehicleId this =? "all") then S count else count in
  let count :=
    if negb (selectedFundId this =? "all") then S count else count in
  count.

Definition activeFilterCountPlural (this : State) : string :=
  if Nat.eqb (activeFilterCount this) 1 then EmptyString else "s".

(** The detail of the event that [fireFilterChangeEvent] dispatches. *)
Definition fireFilterChangeEvent (this : State) : Detail.t :=
  Detail.mk (selectedVehicleId this) (selectedFundId this).

(** The events an operation dispatches: the change handlers fire inside
    their guard, after the state is updated; the clear handler always
    fires. *)
Definition dispatched (op : Op) (this : State) : list Detail.t :=
  match op with
  | VehicleChange newVehicleId =>
      if negb (newVehicleId =? selectedVehicleId this)
      then [fireFilterChangeEvent (handleVehicleChange newVehicleId this)]
      else []
  | FundChange newFundId =>
      if negb (newFundId =? selectedFundId this)
      then [fireFilterChangeEvent (handleFundChange newFundId this)]
      else []
  | Clear => [fireFilterChangeEvent (handleClearFilters this)]
  end.

(** A string is truthy unless it is empty. *)
Definition truthy (s : string) : bool :=
  match s with
  | EmptyString => false
  | String _ _ => true
  end.

(** [setFilters(vehicleId, fundId)], on string arguments: the new state
    and the events dispatched. *)
Definition setFilters (vehicleId fundId : string) (this : State)
  : State * list Detail.t :=
  let changed := false in
  let '(this, changed) :=
    if truthy vehicleId && negb (vehicleId =? selectedVehicleId this)
    then ({| selectedVehicleId := vehicleId;
             selectedFundId := selectedFundId this |}, true)
    else (this, changed) in
  let '(this, changed) :=
    if truthy fundId && negb (fundId =? selectedFundId this)
    then ({| selectedVehicleId := selectedVehicleId this;
             selectedFundId := fundId |}, true)
    else (this, changed) in
  (this, if changed then [fireFilterChangeEvent this] else []).

End FilterBarApi.

(** ** The dashboard ([lpPortalDashboard.js])

    The dashboard keeps the two filter ids, the three views loaded from
    the service, the loading flag and the id of the pending timeout.
    [setTimeout] and [clearTimeout] act on the timers of the page, which
    are part of the modelled state: a scheduled timer is an id with the
    callback to run.  The callbacks read the component when they run.
    The handlers that reach into the filter bar through
    [template.querySelector] ([handleFundClick], [resetFilters],
    [applyFilter]) are not modelled; of [handleViewReportsClick], the
    arguments it hands to the modal are. *)

Module Dashboard.
Import Js Service.

(** [metrics] starts as the empty object, written [None]. *)
Record State : Type := {
  currentVehicleId : string;
  currentFundId : string;
  metrics : option (member Metrics.t);
  allocationData : list Allocation.t;
  performanceData : list Point.t;
  isLoading : bool;
  pendingTimeout : option nat
}.

Definition initial : State :=
  {| currentVehicleId := "all"; currentFundId := "all";
     metrics := None; allocationData := []; performanceData := [];
     isLoading := false; pendingTimeout := None |}.

Definition loadDashboardData (c : JsDate.Clock) (this : State) : State :=
  {| currentVehicleId := currentVehicleId this;
     currentFundId := currentFundId this;
     metrics :=
       Some (getPortfolioMetrics (currentVehicleId this)
                                 (currentFundId this));
     allocationData :=
       getFundAllocation (currentVehicleId this) (currentFundId this);
     performanceData :=
       getPerformanceData c (currentVehicleId this) (currentFundId this);
     isLoading := isLoading this;
     pendingTimeout := pendingTimeout this |}.

Definition connectedCallback (c : JsDate.Clock) (this : State) : State :=
  loadDashboardData c this.

(** The two callbacks given to [setTimeout]: the one of
    [handleFilterChange] and the one of [refreshData]. *)
Inductive Callback : Type :=
| AfterFilterChange
| AfterRefresh.

(** The timers of the page: those scheduled and not yet run or
    cleared, and the next id; ids are positive. *)
Record Timers : Type := {
  scheduled : list (nat * Callback);
  nextId : nat
}.

Definition setTimeout (cb : Callback) (t : Timers) : nat * Timers :=
  (nextId t,
   {| scheduled := scheduled t ++ [(nextId t, cb)];
      nextId := S (nextId t) |}).

Definition clearTimeout (id : nat) (t : Timers) : Timers :=
  {| scheduled := filter (fun e => negb (Nat.eqb (fst e) id)) (scheduled t);
     nextId := nextId t |}.

Record System : Type := {
  dashboard : State;
  timers : Timers
}.

Definition start (c : JsDate.Clock) : System :=
  {| dashboard := connectedCallback c initial;
     timers := {| scheduled := []; nextId := 1 |} |}.

Definition handleFilterChange (detail : Detail.t) (sys : System) : System :=
  let this := dashboard sys in
  let ts :=
    match pendingTimeout this with
    | Some id =>
        if Nat.eqb id 0 then timers sys else clearTimeout id (timers sys)
    | None => timers sys
    end in
  let '(id, ts) := setTimeout AfterFilterChange ts in
  {| dashboard :=
       {| currentVehicleId := Detail.vehicleId detail;
          currentFundId := Detail.fundId detail;
          metrics := metrics this;
          allocationData := allocationData this;
          performanceData := performanceData this;
          isLoading := true;
          pendingTimeout := Some id |};
     timers := ts |}.

Definition refreshData (sys : System) : System :=
  let this := dashboard sys in
  let '(_, ts) := setTimeout AfterRefresh (timers sys) in
  {| dashboard :=
       {| currentVehicleId := currentVehicleId this;
          currentFundId := currentFundId this;
          metrics := metrics this;
          allocationData := allocationData this;
          performanceData := performanceData this;
          isLoading := true;
          pendingTimeout := pendingTimeout this |};
     timers := ts |}.

(** What a callback does when its timer expires, at clock [c]. *)
Definition callback (cb : Callback) (c : JsDate.Clock) (this : State)
  : State :=
  let this := loadDashboardData c this in
  {| currentVehicleId := currentVehicleId this;
     currentFundId := currentFundId this;
     metrics := metrics this;
     allocationData := allocationData this;
     performanceData := performanceData this;
     isLoading := false;
     pendingTimeout :=
       match cb with
       | AfterFilterChange => None
       | AfterRefresh => pendingTimeout this
       end |}.

Inductive Event : Type :=
| FilterChange (detail : Detail.t)
| Refresh
| Expire (id : nat) (c : JsDate.Clock).

(** One event; the expiry of a timer that is not scheduled cannot
    happen. *)
Definition step (e : Event) (sys : System) : option System :=
  match e with
  | FilterChange detail => Some (handleFilterChange detail sys)
  | Refresh => Some (refreshData sys)
  | Expire id c =>
      match find (fun e => Nat.eqb (fst e) id) (scheduled (timers sys)) with
      | Some (_, cb) =>
          Some {| dashboard := callback cb c (dashboard sys);
                  timers := clearTimeout id (timers sys) |}
      | None => None
      end
  end.

Fixpoint exec (events : list Event) (sys : System) : option System :=
  match events with
  | [] => Some sys
  | e :: rest =>
      match step e sys with
      | Some sys' => exec rest sys'
      | None => None
      end
  end.

(** The views on display are those of the current filters, as loaded
    at clock [c]. *)
Definition loaded (c : JsDate.Clock) (this : State) : Prop :=
  metrics this
  = Some (getPortfolioMetrics (currentVehicleId this) (currentFundId this))
  /\ allocationData this
     = getFundAllocation (currentVehicleId this) (currentFundId this)
  /\ performanceData this
     = getPerformanceData c (currentVehicleId this) (currentFundId this).

(** The filter-change timers among the scheduled ones. *)
Definition filterTimers (t : Timers) : list nat :=
  map fst (filter (fun e => match snd e with
                            | AfterFilterChange => true
                            | AfterRefresh => false
                            end) (scheduled t)).

(** What the timers and the component keep between events: a filter
    timer is scheduled exactly when it is the pending one, the ids of
    the scheduled timers are distinct, positive and below the next id;
    a dashboard that is not loading shows the views of its filters, one
    that is loading has a timer to end it. *)
Definition invariant (sys : System) : Prop :=
  let this := dashboard sys in
  let t := timers sys in
  (isLoading this = false -> exists c, loaded c this)
  /\ (isLoading this = true -> scheduled t <> [])
  /\ (forall id, In (id, AfterFilterChange) (scheduled t)
                 <-> pendingTimeout this = Some id)
  /\ NoDup (map fst (scheduled t))
  /\ Forall (fun e => (1 <= fst e < nextId t)%nat) (scheduled t)
  /\ (1 <= nextId t)%nat.

(** [parts.join(sep)] *)
Definition join (sep : string) (parts : list string) : string :=
  match parts with
  | [] => EmptyString
  | p :: rest => fold_left (fun acc q => (acc ++ sep ++ q)%string) rest p
  end.

(** The two arguments [handleViewReportsClick] gives to the [open]
    method of the reports modal: the metrics on display and the
    current filter ids. *)
Definition handleViewReportsClick (this : State)
  : option (member Metrics.t) * Detail.t :=
  (metrics this,
   Detail.mk (currentVehicleId this) (currentFundId this)).

Definition filterStateDescription (this : State) : string :=
  if (currentVehicleId this =? "all") && (currentFundId this =? "all")
  then "Showing all investments"
  else
    let vehicles := getInvestmentVehicles in
    let funds := getFunds in
    let parts := [] in
    let parts :=
      if negb (currentVehicleId this =? "all") then
        match find (fun v => Vehicle.id v =? currentVehicleId this)
                   vehicles with
        | Some vehicle => parts ++ [("Vehicle: " ++ Vehicle.name vehicle)%string]
        | None => parts
        end
      else parts in
    let parts :=
      if negb (currentFundId this =? "all") then
        match find (fun f => Fund.id f =? currentFundId this) funds with
        | Some fund => parts ++ [("Fund: " ++ Fund.name fund)%string]
        | None => parts
        end
      else parts in
    ("Showing " ++ join ", " parts)%string.

(** The filter bar wired to the dashboard, as the comments of both
    components describe it: each [filterchange] event an operation of
    the filter bar dispatches is handled by [handleFilterChange]. *)
Definition deliver (details : list Detail.t) (sys : System) : System :=
  fold_left (fun s d => handleFilterChange d s) details sys.

Fixpoint operate (ops : list FilterBar.Op)
         (bar : FilterBar.State) (sys : System)
  : FilterBar.State * System :=
  match ops with
  | [] => (bar, sys)
  | op :: rest =>
      operate rest (FilterBar.run op bar)
              (deliver (FilterBarApi.dispatched op bar) sys)
  end.

End Dashboard.

(** ** The reports modal ([lpReportsModal.js]) *)

Module ReportsModal.

Definition hasActiveFilters (filterState : Detail.t) : bool :=
  negb (Detail.vehicleId filterState =? "all")
  || negb (Detail.fundId filterState =? "all").

Definition filterDescription (filterState : Detail.t) : string :=
  if negb (hasActiveFilters filterState) then EmptyString
  else
    let parts := [] in
    let parts :=
      if negb (Detail.vehicleId filterState =? "all")
      then parts ++ [("Investment Vehicle: "
                      ++ Detail.vehicleId filterState)%string]
      else parts in
    let parts :=
      if negb (Detail.fundId filterState =? "all")
      then parts ++ [("Fund: " ++ Detail.fundId filterState)%string]
      else parts in
    Dashboard.join ", " parts.

End ReportsModal.

(** ** The performance chart ([lpPerformanceChart.js]): [formatDate]

    [new Date(dateString + '-01')] reads a date-only string, which
    stands for midnight UTC; [toLocaleDateString] renders the local
    date of that instant.  [offsetAt] is the offset of local time from
    UTC in force at a given UTC time.  The result is [None] for a string
    that is not of the form YYYY-MM: such dates are not modelled. *)

Module PerformanceChart.
Local Open Scope Z_scope.

Definition digitValue (a : Ascii.ascii) : option Z :=
  let n := Z.of_nat (Ascii.nat_of_ascii a) in
  if (48 <=? n) && (n <=? 57) then Some (n - 48) else None.

(** The year and the 0-based month that "YYYY-MM-01" denotes. *)
Definition parseFirstOfMonth (s : string) : option (Z * Z) :=
  match s with
  | String y1 (String y2 (String y3 (String y4 (String "-"%char
      (String m1 (String m2 (String "-"%char (String "0"%char
        (String "1"%char EmptyString))))))))) =>
      match digitValue y1, digitValue y2, digitValue y3, digitValue y4,
            digitValue m1, digitValue m2 with
      | Some a, Some b, Some c, Some d, Some e, Some f =>
          let month := e * 10 + f in
          if (1 <=? month) && (month <=? 12)
          then Some (a * 1000 + b * 100 + c * 10 + d, month - 1)
          else None
      | _, _, _, _, _, _ => None
      end
  | _ => None
  end.

Definition monthShort (month : Z) : string :=
  nth (Z.to_nat month)
      ["Jan"; "Feb"; "Mar"; "Apr"; "May"; "Jun";
       "Jul"; "Aug"; "Sep"; "Oct"; "Nov"; "Dec"]%string EmptyString.

(** [toLocaleDateString('en-US', { month: 'short', year: '2-digit' })]
    of the time value [t].  The two digits are those of the astronomical
    year; for a local year before 1 the engine prints the year of the
    era instead, so the model is that of the engine for years from 1 on
    only. *)
Definition toLocaleDateString (offsetAt : Z -> Z) (t : Z) : string :=
  let local := t + offsetAt t in
  (monthShort (JsDate.MonthFromTime local) ++ " "
   ++ JsDate.pad 2 (JsDate.YearFromTime local))%string.

(** [formatDate(dateString)]; [dateString] is [None] for [undefined]. *)
Definition formatDate (offsetAt : Z -> Z) (dateString : option string)
  : option string :=
  match dateString with
  | None => Some EmptyString
  | Some EmptyString => Some EmptyString
  | Some s =>
      match parseFirstOfMonth (s ++ "-01")%string with
      | Some (year, month) =>
          let date := JsDate.MakeDay year month 1 * JsDate.msPerDay in
          Some (toLocaleDateString offsetAt date)
      | None => None
      end
  end.

(** [formatDate] of each label of [prepareChartData], the dates of the
    series: the titles of the tooltips and, at the even places, the
    ticks of the x axis. *)
Definition labels (offsetAt : Z -> Z) (performanceData : list Point.t)
  : list (option string) :=
  map (fun d => formatDate offsetAt (Point.date d)) performanceData.

End PerformanceChart.

(** ** The navigation ([lpNavigation], a component of the portal)

    The sidebar keeps the current view, whether it is collapsed and
    whether the profile dropdown is open.  [portalIconsBase] is the URL
    of a static resource, a parameter of the getters.  A click handler
    receives the id that the clicked element carries. *)

Module Navigation.

Module MenuItem.
Record t : Type := mk {
  id : string; label : string; icon : string; active : bool
}.
End MenuItem.

Module HelpItem.
Record t : Type := mk { id : string; label : string; icon : string }.
End HelpItem.

(** An entry of [activeMenuItems]: the item with its computed fields. *)
Module ActiveItem.
Record t : Type := mk {
  id : string; label : string; icon : string; active : bool;
  class : string; iconUrl : string
}.
End ActiveItem.

Record State : Type := {
  currentView : string;
  isCollapsed : bool;
  isProfileDropdownOpen : bool
}.

Definition initial : State :=
  {| currentView := "overview"; isCollapsed := false;
     isProfileDropdownOpen := false |}.

Definition menuItems : list MenuItem.t :=
  [ MenuItem.mk "overview" "Overview" "trending_up.svg" true;
    MenuItem.mk "documents" "Documents" "text_snippet.svg" false;
    MenuItem.mk "funds" "Funds" "paid.svg" false;
    MenuItem.mk "capital-commitments" "Capital Commitments" "Icon.svg" false;
    MenuItem.mk "capital-calls" "Capital Calls" "Icon-1.svg" false;
    MenuItem.mk "distributions" "Distributions" "Icon-2.svg" false;
    MenuItem.mk "capital-accounts" "Capital Accounts" "Icon-3.svg" false;
    MenuItem.mk "investment-vehicle" "Investment Vehicle" "Icon-4.svg" false;
    MenuItem.mk "data-room" "Aduro Capital Data Room" "Icon-5.svg" false ].

Definition helpItems : list HelpItem.t :=
  [ HelpItem.mk "help" "Help" "Icon-6.svg";
    HelpItem.mk "support" "Get Support" "Group.svg" ].

Definition activeMenuItems (portalIconsBase : string) (this : State)
  : list ActiveItem.t :=
  map (fun item =>
         ActiveItem.mk
           (MenuItem.id item) (MenuItem.label item) (MenuItem.icon item)
           (MenuItem.id item =? currentView this)
           (if MenuItem.id item =? currentView this
            then "nav-item active" else "nav-item")
           (portalIconsBase ++ "/" ++ MenuItem.icon item)%string)
      menuItems.

Definition isOverviewView (this : State) : bool :=
  currentView this =? "overview".

Definition isInProgressView (this : State) : bool :=
  negb (currentView this =? "overview").

(** [[...this.menuItems, ...this.helpItems].find(...)]: only the id and
    the label of an item are read. *)
Definition currentViewLabel (this : State) : string :=
  match find (fun i => fst i =? currentView this)
             (map (fun i => (MenuItem.id i, MenuItem.label i)) menuItems
              ++ map (fun i => (HelpItem.id i, HelpItem.label i)) helpItems)
  with
  | Some item => snd item
  | None => "Page"
  end.

Definition handleNavItemClick (viewId : string) (this : State) : State :=
  {| currentView := viewId;
     isCollapsed := isCollapsed this;
     isProfileDropdownOpen := false |}.

Definition handleCollapseToggle (this : State) : State :=
  let collapsed := negb (isCollapsed this) in
  {| currentView := currentView this;
     isCollapsed := collapsed;
     isProfileDropdownOpen :=
       if collapsed then false else isProfileDropdownOpen this |}.

Definition handleProfileClick (this : State) : State :=
  {| currentView := currentView this;
     isCollapsed := isCollapsed this;
     isProfileDropdownOpen := negb (isProfileDropdownOpen this) |}.

(** The action is only logged. *)
Definition handleProfileAction (action : string) (this : State) : State :=
  {| currentView := currentView this;
     isCollapsed := isCollapsed this;
     isProfileDropdownOpen := false |}.

Inductive Op : Type :=
| NavItemClick (viewId : string)
| CollapseToggle
| ProfileClick
| ProfileAction (action : string).

Definition run (op : Op) (this : State) : State :=
  match op with
  | NavItemClick viewId => handleNavItemClick viewId this
  | CollapseToggle => handleCollapseToggle this
  | ProfileClick => handleProfileClick this
  | ProfileAction action => handleProfileAction action this
  end.

Definition runs (ops : list Op) (this : State) : State :=
  fold_left (fun s op => run op s) ops this.

End Navigation.

(** ** Expected labels of the performance chart *)

Module Expected.

(** The twelve labels "Mon YY" of the months from [month] minus 11
    through [month] of year [year]. *)
Definition labelWindow (year month : Z) : list string :=
  map (fun i =>
         let n := (year * 12 + month - i)%Z in
         (PerformanceChart.monthShort (n mod 12) ++ " "
          ++ JsDate.pad 2 (n / 12))%string)
      [11; 10; 9; 8; 7; 6; 5; 4; 3; 2; 1; 0]%Z.

End Expected.

(** ** Sample environments and tables used in the statements *)

Module Sample.
Import JsDate.

(** 3 November 2026 in a zone at UTC+05:30 all year (Asia/Kolkata). *)
Definition kolkata : Clock :=
  {| getFullYear := 2026; getMonth := 10;
     LocalTZA := fun _ => 19800000%Z |}.

(** The same day in a zone at UTC. *)
Definition utc : Clock :=
  {| getFullYear := 2026; getMonth := 10; LocalTZA := fun _ => 0%Z |}.

(** The same day in a zone at UTC-05:00. *)
Definition new_york : Clock :=
  {| getFullYear := 2026; getMonth := 10;
     LocalTZA := fun _ => (-18000000)%Z |}.

(** The same day in a zone at UTC in winter and at UTC+01:00 from
    01:00 UTC of 29 March 2026 to 01:00 UTC of 25 October 2026
    (Europe/London). *)
Definition london : Clock :=
  {| getFullYear := 2026; getMonth := 10;
     LocalTZA := fun t =>
       if ((MakeDay 2026 2 29 * msPerDay + 3600000 <=? t)
           && (t <? MakeDay 2026 9 25 * msPerDay + 7200000))%Z
       then 3600000%Z else 0%Z |}.

(** Every triple of multipliers the fixture holds. *)
Definition fixtureMultipliers : list Multipliers.t :=
  Spec.identity
    :: map snd Service.fundMultipliers
    ++ map snd Service.vehicleMultipliers.

End Sample.

(** * Properties *)

Import Js Service.

(** ** Numbers *)

Example Math_round_values :
  map Math_round [2.5; -2.5; 0.4; -0.2; 3144.81; -3.7; 7]%float
  = [3; -2; 0; -0; 3145; -4; 7]%float.
Proof. reflexivity. Qed.

(** ** Look-ups in the object literals *)

Lemma own_In (A : Type) (table : list (string * A)) (key : string) (a : A) :
  own table key = Some a -> In key (map fst table).
Proof.
  induction table as [| [k b] rest IH]; simpl; [discriminate |].
  destruct (String.eqb_spec k key) as [-> | _]; [now left | right; auto].
Qed.

Lemma own_not_In (A : Type) (table : list (string * A)) (key : string) :
  ~ In key (map fst table) -> own table key = None.
Proof.
  intro H. destruct (own table key) as [a |] eqn:E; [| reflexivity].
  elim H. exact (own_In _ _ E).
Qed.

(** A key that is neither an own property nor inherited reads as
    [undefined], and [||] selects the default. *)
Lemma get_orElse_default (A : Type) (table : list (string * A))
      (key : string) (dflt : member A) :
  own table key = None -> inherited key = false ->
  orElse (get table key) dflt = dflt.
Proof. intros Ho Hi. unfold get. now rewrite Ho, Hi. Qed.

Lemma get_orElse_own (A : Type) (table : list (string * A))
      (key : string) (dflt : member A) (a : A) :
  own table key = Some a -> orElse (get table key) dflt = Own a.
Proof. intros Ho. unfold get. now rewrite Ho. Qed.

(** An inherited key that is not an own property reads as the inherited
    member, which is truthy: the default is not selected. *)
Lemma get_orElse_inherited (A : Type) (table : list (string * A))
      (key : string) (dflt : member A) :
  own table key = None -> inherited key = true ->
  orElse (get table key) dflt = Inherited key.
Proof. intros Ho Hi. unfold get. now rewrite Ho, Hi. Qed.

(** ** getPortfolioMetrics *)

(** Away from the names inherited from [Object.prototype], the code
    follows the precedence rule with its silent fallback. *)
Lemma getPortfolioMetrics_precedence (v f : string) :
  inherited (if negb (f =? "all") then f else v) = false ->
  getPortfolioMetrics v f = Own (Spec.getMetrics v f).
Proof.
  unfold getPortfolioMetrics, Spec.getMetrics.
  destruct (negb (f =? "all")); cbv beta iota.
  - intro Hi. destruct (own fundMetrics f) as [m |] eqn:E.
    + exact (get_orElse_own _ _ _ E).
    + exact (get_orElse_default _ _ _ E Hi).
  - destruct (negb (v =? "all")); cbv beta iota; [| reflexivity].
    intro Hi. destruct (own vehicleMetrics v) as [m |] eqn:E.
    + exact (get_orElse_own _ _ _ E).
    + exact (get_orElse_default _ _ _ E Hi).
Qed.

(** C1: getMetrics is claimed to return, for every pair of ids, the
    fixture selected by the precedence rule, the full-portfolio fixture
    standing in for an unknown id.  For the fund id "constructor", which
    is not a fund of the table, [fundMetrics[fundId]] reads the member
    inherited from [Object.prototype]; it is truthy, so the code returns
    it and not the full-portfolio fixture. *)
Theorem getPortfolioMetrics_inherited_key :
  own fundMetrics "constructor" = None
  /\ getPortfolioMetrics "all" "constructor" = Inherited "constructor"
  /\ getPortfolioMetrics "all" "constructor"
     <> Own (Spec.getMetrics "all" "constructor")
  /\ Spec.getMetrics "all" "constructor" = fullMetrics.
Proof.
  repeat split; try reflexivity.
  vm_compute. discriminate.
Qed.

(** C8: with both filters at "all", getMetrics returns exactly the
    full-portfolio record of the fixture. *)
Theorem getPortfolioMetrics_all_all :
  getPortfolioMetrics "all" "all"
  = Own (Metrics.mk 618886450.23 130575585.29 12756900.14
                    160335942.14 1.33).
Proof. reflexivity. Qed.

(** ** getFunds *)

Lemma getFunds_ids : map Fund.id getFunds = Spec.fundIds.
Proof. reflexivity. Qed.

(** C7: each fund's allocation is its totalCommitments divided by the
    full-portfolio totalCommitments, scaled to 100 and rounded to two
    decimals, and the allocations returned by getFunds sum, exactly
    computed, to 100 within 0.02. *)
Theorem getFunds_allocation_sum :
  Forall (fun fund =>
            exists m,
              own fundMetrics (Fund.id fund) = Some m
              /\ Fund.allocation fund
                 = (Math_round (Metrics.totalCommitments m
                                / Metrics.totalCommitments fullMetrics
                                * 100 * 100) / 100)%float)
         getFunds
  /\ exists s,
      exact_sum (map Fund.allocation getFunds) = Some s
      /\ (Qabs (s - 100) <= 2 # 100)%Q.
Proof.
  split.
  - repeat (constructor; [eexists; split; reflexivity |]). constructor.
  - eexists. split; [vm_compute; reflexivity |].
    apply Qle_bool_iff. vm_compute. reflexivity.
Qed.

(** C9: the vehicle-level and fund-level fixtures do not sum
    consistently.  The funds of vehicle iv1 are pbventures, norton and
    mjk; the totalCalled stored for iv1 exceeds the sum of their
    totalCalled by more than 47999, in exact arithmetic, and differs
    from the sum formed with JavaScript's addition. *)
Theorem iv1_totalCalled_differs :
  map Fund.id (filter (fun f => Fund.vehicleId f =? "iv1") getFunds)
  = ["pbventures"; "norton"; "mjk"]
  /\ exists stored parts s t,
      own vehicleMetrics "iv1" = Some stored
      /\ map (own fundMetrics) ["pbventures"; "norton"; "mjk"]
         = map Some parts
      /\ exact_value (Metrics.totalCalled stored) = Some s
      /\ exact_sum (map Metrics.totalCalled parts) = Some t
      /\ (47999 < s - t)%Q
      /\ fold_left PrimFloat.add (map Metrics.totalCalled parts) 0%float
         <> Metrics.totalCalled stored.
Proof.
  split; [reflexivity |].
  eexists. exists (map snd [ nth 0 fundMetrics ("", fullMetrics);
                             nth 1 fundMetrics ("", fullMetrics);
                             nth 5 fundMetrics ("", fullMetrics) ]).
  do 2 eexists.
  split; [reflexivity |].
  split; [reflexivity |].
  split; [vm_compute; reflexivity |].
  split; [vm_compute; reflexivity |].
  split; [vm_compute; reflexivity |].
  vm_compute. intro H.
  apply (f_equal (fun x => PrimFloat.ltb x 77000000%float)) in H.
  vm_compute in H. discriminate H.
Qed.

(** The other metrics of iv1 that are sums agree with its funds, as
    decimals: only totalCalled is out of line. *)
Lemma iv1_other_totals_agree :
  Forall
    (fun field =>
       fold_left Z.add
         (map (fun k =>
                 match own fundMetrics k with
                 | Some m => Spec.hundredths (field m)
                 | None => 0%Z
                 end)
              ["pbventures"; "norton"; "mjk"])
         0%Z
       = match own vehicleMetrics "iv1" with
         | Some m => Spec.hundredths (field m)
         | None => (-1)%Z
         end)
    [Metrics.totalCommitments; Metrics.totalDistributions;
     Metrics.estimatedValue].
Proof. repeat constructor. Qed.

(** ** getFundAllocation *)

(** C10: for a known fund id and any vehicle id whatsoever,
    getFundAllocation returns the single entry of that fund, at an
    allocation of exactly 100 and with the fund's own fund-level
    totalCommitments as value. *)
Theorem getFundAllocation_single_fund (v f : string) :
  In f (map Fund.id getFunds) ->
  exists fund m,
    find (fun x => Fund.id x =? f) getFunds = Some fund
    /\ Fund.id fund = f
    /\ own fundMetrics f = Some m
    /\ getFundAllocation v f
       = [ Allocation.mk f (Fund.name fund) 100%float
                         (Num (Metrics.totalCommitments m))
                         (Fund.color fund) ].
Proof.
  rewrite getFunds_ids. unfold Spec.fundIds.
  intro H.
  repeat (destruct H as [<- | H];
          [do 2 eexists; repeat split; reflexivity |]).
  destruct H.
Qed.

Lemma getFundAllocation_single_fund_witness :
  getFundAllocation "iv2" "pbventures"
  = [ Allocation.mk "pbventures" "PB Ventures Fund" 100%float
                    (Num 194628458.10%float) "#1976D2" ].
Proof.
  destruct (@getFundAllocation_single_fund "iv2" "pbventures")
    as (fund & m & Hfind & _ & Hown & Heq).
  - vm_compute. auto.
  - vm_compute in Hfind. injection Hfind as <-.
    vm_compute in Hown. injection Hown as <-.
    exact Heq.
Defined.

Lemma neq_all (x : string) : x <> "all" -> negb (x =? "all") = true.
Proof. intro H. apply Bool.negb_true_iff. now apply String.eqb_neq. Qed.

Lemma neq_all' (x : string) : x <> "all" -> (x =? "all") = false.
Proof. intro H. now apply String.eqb_neq. Qed.

Lemma find_unknown (A : Type) (key : A -> string) (l : list A) (x : string) :
  ~ In x (map key l) -> find (fun a => key a =? x) l = None.
Proof.
  induction l as [| a l IH]; simpl; [reflexivity |].
  intro H. destruct (String.eqb_spec (key a) x) as [E | _].
  - elim H. now left.
  - apply IH. intro Hin. apply H. now right.
Qed.

Lemma filter_unknown (A : Type) (key : A -> string) (l : list A) (x : string) :
  ~ In x (map key l) -> filter (fun a => key a =? x) l = [].
Proof.
  induction l as [| a l IH]; simpl; [reflexivity |].
  intro H. destruct (String.eqb_spec (key a) x) as [E | _].
  - elim H. now left.
  - apply IH. intro Hin. apply H. now right.
Qed.

Lemma getFundAllocation_no_fund (v f : string) :
  f = "all" \/ ~ In f (map Fund.id getFunds) ->
  getFundAllocation v f = vehicleView v.
Proof.
  intro H. unfold getFundAllocation, vehicleView.
  destruct H as [-> | H].
  - reflexivity.
  - rewrite (@find_unknown _ Fund.id getFunds f H).
    destruct (negb (f =? "all")); reflexivity.
Qed.

Lemma getFunds_vehicles :
  forall x, In x (map Fund.vehicleId getFunds) -> In x Spec.vehicleIds.
Proof.
  intros x H. vm_compute in H. unfold Spec.vehicleIds.
  repeat (destruct H as [<- | H]; [simpl; auto |]). destruct H.
Qed.

(** C3: for a known vehicle other than "all", getAllocation returns
    exactly the funds of that vehicle, each at its global allocation
    divided by the sum of the global allocations of these funds and
    scaled to 100, and the returned percentages sum, exactly computed,
    to 100 within 0.02. *)
Theorem getFundAllocation_vehicle_renormalized (v : string) :
  In v (map Vehicle.id getInvestmentVehicles) -> v <> "all" ->
  let subset := filter (fun f => Fund.vehicleId f =? v) getFunds in
  let total :=
    fold_left (fun sum f => (sum + Fund.allocation f)%float)
              subset 0%float in
  getFundAllocation v "all"
  = map (fun f =>
           Allocation.mk
             (Fund.id f) (Fund.name f)
             (Fund.allocation f / total * 100)%float
             (prop Metrics.totalCommitments
                   (getPortfolioMetrics "all" (Fund.id f)))
             (Fund.color f))
        subset
  /\ exists s,
      exact_sum (map Allocation.allocation (getFundAllocation v "all"))
      = Some s
      /\ (Qabs (s - 100) <= 2 # 100)%Q.
Proof.
  intros Hin Hv. split.
  - rewrite getFundAllocation_no_fund by now left.
    unfold vehicleView. rewrite (neq_all Hv), (neq_all' Hv). reflexivity.
  - simpl in Hin.
    destruct Hin as [E | [<- | [<- | []]]]; [now elim Hv | |];
      (eexists; split; [vm_compute; reflexivity |];
       apply Qle_bool_iff; vm_compute; reflexivity).
Qed.

Lemma getFundAllocation_vehicle_renormalized_witness :
  map Allocation.fundId (getFundAllocation "iv1" "all")
  = ["pbventures"; "norton"; "mjk"]
  /\ exists s,
      exact_sum (map Allocation.allocation (getFundAllocation "iv1" "all"))
      = Some s
      /\ (Qabs (s - 100) <= 2 # 100)%Q.
Proof.
  destruct (@getFundAllocation_vehicle_renormalized "iv1") as [Heq Hsum].
  - simpl. auto.
  - discriminate.
  - split; [rewrite Heq; reflexivity | exact Hsum].
Defined.

(** ** getPerformanceData *)

Lemma own_In_snd (A : Type) (table : list (string * A)) (key : string) (a : A) :
  own table key = Some a -> In a (map snd table).
Proof.
  induction table as [| [k b] rest IH]; simpl; [discriminate |].
  destruct (k =? key).
  - intro H. injection H as ->. now left.
  - right. auto.
Qed.

Lemma selectMultipliers_precedence (v f : string) :
  inherited (if negb (f =? "all") then f else v) = false ->
  selectMultipliers v f = Own (Spec.multipliers v f).
Proof.
  unfold selectMultipliers, Spec.multipliers.
  destruct (negb (f =? "all")); cbv beta iota zeta.
  - intro Hi. destruct (own fundMultipliers f) as [m |] eqn:E.
    + exact (get_orElse_own _ _ _ E).
    + exact (get_orElse_default _ _ _ E Hi).
  - destruct (negb (v =? "all")); cbv beta iota; [| reflexivity].
    intro Hi. destruct (own vehicleMultipliers v) as [m |] eqn:E.
    + exact (get_orElse_own _ _ _ E).
    + exact (get_orElse_default _ _ _ E Hi).
Qed.

Lemma multipliers_fixture (v f : string) :
  In (Spec.multipliers v f) Sample.fixtureMultipliers.
Proof.
  unfold Spec.multipliers, Sample.fixtureMultipliers.
  destruct (negb (f =? "all")).
  - destruct (own fundMultipliers f) as [m |] eqn:E; [| now left].
    right. apply in_or_app. left. exact (own_In_snd _ _ E).
  - destruct (negb (v =? "all")); [| now left].
    destruct (own vehicleMultipliers v) as [m |] eqn:E; [| now left].
    right. apply in_or_app. right. exact (own_In_snd _ _ E).
Qed.

(** For every triple of the fixture, the floating-point expression
    [Math.round(x * m * 100) / 100] of the code yields, on each of the
    twelve canonical points, the number nearest to the product rounded
    half-up to two decimals in exact decimal arithmetic. *)
Lemma adjust_round2 (ms : list string) (m : Multipliers.t) :
  In m Sample.fixtureMultipliers ->
  map (adjust (Own m)) (fullPerformance ms)
  = map (Spec.point m) (fullPerformance ms).
Proof.
  intro H. vm_compute in H.
  repeat (destruct H as [<- | H]; [vm_compute; reflexivity |]).
  destruct H.
Qed.

(** X5: away from the names inherited from [Object.prototype], each point
    of the series is the canonical point adjusted by the triple that
    the precedence rule selects, rounded half-up to two decimals. *)
Lemma getPerformanceData_round2 (c : JsDate.Clock) (v f : string) :
  inherited (if negb (f =? "all") then f else v) = false ->
  getPerformanceData c v f
  = map (Spec.point (Spec.multipliers v f)) (fullPerformance (months c)).
Proof.
  intro Hi. unfold getPerformanceData.
  rewrite (selectMultipliers_precedence _ _ Hi).
  apply adjust_round2, multipliers_fixture.
Qed.

Lemma getPerformanceData_length (c : JsDate.Clock) (v f : string) :
  length (getPerformanceData c v f) = 12%nat.
Proof. unfold getPerformanceData. rewrite length_map. reflexivity. Qed.

(** C5: each point of the series is claimed to be the canonical point
    adjusted by the selected triple, the identity standing in for an
    unknown fund.  For the fund id "constructor", which has no triple in
    the table, [fundMultipliers[fundId]] reads the member inherited from
    [Object.prototype]; its multipliers are [undefined], and every
    figure of the series is NaN, whatever the clock. *)
Theorem getPerformanceData_inherited_key (c : JsDate.Clock) :
  own fundMultipliers "constructor" = None
  /\ Spec.multipliers "all" "constructor" = Spec.identity
  /\ map (fun p => (Point.totalValue p, Point.capitalCalled p, Point.tvpi p))
         (getPerformanceData c "all" "constructor")
     = repeat (nan, nan, nan) 12
  /\ getPerformanceData c "all" "constructor"
     <> map (Spec.point (Spec.multipliers "all" "constructor"))
            (fullPerformance (months c)).
Proof.
  unfold getPerformanceData. generalize (months c) as ms. intro ms.
  split; [reflexivity |]. split; [reflexivity |].
  split; [vm_compute; reflexivity |].
  intro H.
  apply (f_equal (fun l => match l with
                           | p :: _ => PrimFloat.is_nan (Point.totalValue p)
                           | [] => false
                           end)) in H.
  vm_compute in H. discriminate H.
Qed.

(** ** Unrecognized ids *)

Lemma vehicle_ids :
  map Vehicle.id getInvestmentVehicles = "all" :: Spec.vehicleIds.
Proof. reflexivity. Qed.

Lemma unrecognized_own_fund (f : string) :
  Spec.unrecognized Spec.fundIds f ->
  own fundMetrics f = None /\ own fundMultipliers f = None.
Proof. intros [_ H]. split; apply own_not_In; exact H. Qed.

Lemma unrecognized_own_vehicle (v : string) :
  Spec.unrecognized Spec.vehicleIds v ->
  own vehicleMetrics v = None /\ own vehicleMultipliers v = None.
Proof. intros [_ H]. split; apply own_not_In; exact H. Qed.

Lemma iv9_unrecognized : Spec.unrecognized Spec.vehicleIds "iv9".
Proof.
  split; [discriminate |].
  simpl. intros [H | [H | []]]; discriminate H.
Qed.

Lemma zzz_unrecognized : Spec.unrecognized Spec.fundIds "zzz".
Proof.
  split; [discriminate |].
  simpl. intros [H | [H | [H | [H | [H | [H | []]]]]]]; discriminate H.
Qed.

(** C2, as stated, fails: for a vehicle id that is neither "all" nor a
    known vehicle, getAllocation does not return the full-portfolio
    allocation.  At "iv9" the vehicle filter matches no fund and the
    result is the empty sequence. *)
Lemma getFundAllocation_unknown_vehicle_not_full :
  getFundAllocation "iv9" "all" = []
  /\ ~ (forall v, Spec.unrecognized Spec.vehicleIds v ->
                  getFundAllocation v "all" = getFundAllocation "all" "all").
Proof.
  split; [reflexivity |].
  intro H. specialize (H "iv9" iv9_unrecognized).
  apply (f_equal (@length _)) in H. vm_compute in H. discriminate H.
Qed.

(** C2, amended: an unrecognized fund id that is not a name inherited
    from [Object.prototype] degrades getMetrics and getPerformanceSeries
    to the full-portfolio view, and any unrecognized fund id degrades
    getAllocation to the view of the vehicle filter alone; an
    unrecognized vehicle id with no fund filter, when it is not an
    inherited name, degrades getMetrics and getPerformanceSeries to the
    full-portfolio view, and getAllocation then returns the empty
    sequence.  The three operations are total: no input makes them
    fail. *)
Theorem unrecognized_ids_degrade (c : JsDate.Clock) (v f : string) :
  (Spec.unrecognized Spec.fundIds f ->
   (inherited f = false ->
    getPortfolioMetrics v f = Own fullMetrics
    /\ getPerformanceData c v f = getPerformanceData c "all" "all")
   /\ getFundAllocation v f = getFundAllocation v "all")
  /\
  (Spec.unrecognized Spec.vehicleIds v ->
   (inherited v = false ->
    getPortfolioMetrics v "all" = Own fullMetrics
    /\ getPerformanceData c v "all" = getPerformanceData c "all" "all")
   /\ getFundAllocation v "all" = []).
Proof.
  split.
  - intro Hf. destruct (unrecognized_own_fund Hf) as [Hm Hp].
    destruct Hf as [Hall Hin]. split.
    + intro Hi. split.
      * unfold getPortfolioMetrics. rewrite (neq_all Hall).
        exact (get_orElse_default _ _ _ Hm Hi).
      * unfold getPerformanceData.
        replace (selectMultipliers v f) with (selectMultipliers "all" "all");
          [reflexivity |].
        change (selectMultipliers "all" "all") with (Own Spec.identity).
        unfold selectMultipliers. cbv zeta. rewrite (neq_all Hall).
        symmetry. exact (get_orElse_default _ _ _ Hp Hi).
    + rewrite !getFundAllocation_no_fund; [reflexivity | now left |].
      right. rewrite getFunds_ids. exact Hin.
  - intro Hv. destruct (unrecognized_own_vehicle Hv) as [Hm Hp].
    destruct Hv as [Hall Hin]. split.
    + intro Hi. split.
      * change (getPortfolioMetrics v "all")
          with (if negb (v =? "all")
                then orElse (get vehicleMetrics v) (Own fullMetrics)
                else Own fullMetrics).
        rewrite (neq_all Hall).
        exact (get_orElse_default _ _ _ Hm Hi).
      * unfold getPerformanceData.
        replace (selectMultipliers v "all")
          with (selectMultipliers "all" "all"); [reflexivity |].
        change (selectMultipliers "all" "all") with (Own Spec.identity).
        change (selectMultipliers v "all")
          with (if negb (v =? "all")
                then orElse (get vehicleMultipliers v) (Own Spec.identity)
                else Own Spec.identity).
        rewrite (neq_all Hall).
        symmetry. exact (get_orElse_default _ _ _ Hp Hi).
    + rewrite getFundAllocation_no_fund by now left.
      unfold vehicleView. rewrite (neq_all Hall).
      rewrite (@filter_unknown _ Fund.vehicleId getFunds v); [reflexivity |].
      intro H. apply Hin. exact (getFunds_vehicles H).
Qed.

Lemma unrecognized_ids_degrade_witness :
  (getPortfolioMetrics "iv9" "zzz" = Own fullMetrics
   /\ getPerformanceData Sample.utc "iv9" "zzz"
      = getPerformanceData Sample.utc "all" "all"
   /\ getFundAllocation "iv9" "zzz" = getFundAllocation "iv9" "all")
  /\
  (getPortfolioMetrics "iv9" "all" = Own fullMetrics
   /\ getPerformanceData Sample.utc "iv9" "all"
      = getPerformanceData Sample.utc "all" "all"
   /\ getFundAllocation "iv9" "all" = []).
Proof.
  destruct (unrecognized_ids_degrade Sample.utc "iv9" "zzz") as [Hf Hv].
  destruct (Hf zzz_unrecognized) as [Hf1 Hf2].
  destruct (Hv iv9_unrecognized) as [Hv1 Hv2].
  destruct (Hf1 eq_refl) as [Hfm Hfp].
  destruct (Hv1 eq_refl) as [Hvm Hvp].
  repeat split; assumption.
Defined.

(** ** The calendar *)

Section MonthWindow.
Import JsDate Calendar.
Local Open Scope Z_scope.

Lemma In_range (n : nat) (z : Z) : 0 <= z < Z.of_nat n -> In z (range n).
Proof.
  intro H. unfold range. apply in_map_iff. exists (Z.to_nat z). split.
  - lia.
  - apply in_seq. lia.
Qed.

Lemma firstDayChecks_true : firstDayChecks = true.
Proof. vm_compute. reflexivity. Qed.

Lemma firstDayChecks_unfolded :
  forallb (fun yoe => forallb (firstDayCheck yoe) (range 12)) (range 400)
  = true.
Proof. vm_compute. reflexivity. Qed.

Lemma firstDayCheck_true (yoe mp : Z) :
  0 <= yoe < 400 -> 0 <= mp < 12 -> firstDayCheck yoe mp = true.
Proof.
  intros Hy Hm.
  assert (Hy' : In yoe (range 400)) by (apply In_range; exact Hy).
  assert (Hm' : In mp (range 12)) by (apply In_range; exact Hm).
  pose proof (proj1 (forallb_forall _ _) firstDayChecks_unfolded yoe Hy')
    as H.
  exact (proj1 (forallb_forall (firstDayCheck yoe) (range 12)) H mp Hm').
Qed.

Lemma pair_eqb_eq (p q : Z * Z) : pair_eqb p q = true -> p = q.
Proof.
  destruct p, q. unfold pair_eqb. simpl. intro H.
  apply andb_true_iff in H. destruct H as [H1 H2].
  apply Z.eqb_eq in H1, H2. congruence.
Qed.

(** [civil] splits a day number into its era and its day of the era, and
    the era only shifts the year. *)
Lemma civil_era (era doe : Z) :
  0 <= doe < 146097 ->
  civil (era * 146097 + doe - 719468) = civil_of_era era doe.
Proof.
  intro H. unfold civil. cbv zeta.
  replace (era * 146097 + doe - 719468 + 719468)
    with (doe + era * 146097) by lia.
  rewrite Z.div_add by lia. rewrite (Z.div_small doe 146097) by lia.
  f_equal; lia.
Qed.

Lemma civil_of_era_shift (era doe : Z) :
  civil_of_era era doe
  = (fst (civil_of_era 0 doe) + era * 400, snd (civil_of_era 0 doe)).
Proof.
  unfold civil_of_era. cbv zeta.
  set (yoe := (doe - doe / 1460 + doe / 36524 - doe / 146096) / 365).
  set (mp := (5 * (doe - (365 * yoe + yoe / 4 - yoe / 100)) + 2) / 153).
  set (mn := if mp <? 10 then mp + 2 else mp - 10).
  destruct (mn <? 2); simpl; f_equal; lia.
Qed.

(** The day number [MakeDay] gives the first of a month, by era, year of
    the era and month from March. *)
Lemma MakeDay_first (year month : Z) :
  exists era yoe mp,
    0 <= yoe < 400 /\ 0 <= mp < 12
    /\ MakeDay year month 1 = era * 146097 + dayOfEra yoe mp - 719468
    /\ civilMonth mp = month mod 12
    /\ (if civilMonth mp <? 2 then yoe + 1 else yoe) + era * 400
       = year + month / 12.
Proof.
  unfold MakeDay, dayOfEra, civilMonth. cbv zeta.
  pose proof (Z.mod_pos_bound month 12 eq_refl) as Hmn.
  set (mn := month mod 12) in *. set (ym := year + month / 12).
  destruct (Z.ltb_spec mn 2) as [Hlt | Hge].
  - exists ((ym - 1) / 400), (ym - 1 - (ym - 1) / 400 * 400), (mn + 10).
    destruct (Z.ltb_spec (mn + 10) 10); [lia |].
    replace (mn + 10 - 10) with mn by lia.
    destruct (Z.ltb_spec mn 2); [| lia].
    repeat split; try lia; Z.div_mod_to_equations; lia.
  - exists (ym / 400), (ym - ym / 400 * 400), (mn - 2).
    destruct (Z.ltb_spec (mn - 2) 10); [| lia].
    replace (mn - 2 + 2) with mn by lia.
    destruct (Z.ltb_spec mn 2); [lia |].
    repeat split; try lia; Z.div_mod_to_equations; lia.
Qed.

Lemma firstDayCheck_facts (yoe mp : Z) :
  0 <= yoe < 400 -> 0 <= mp < 12 ->
  let doe := dayOfEra yoe mp in
  let mn := civilMonth mp in
  let y := if mn <? 2 then yoe + 1 else yoe in
  0 <= doe < 146097
  /\ civil_of_era 0 doe = (y, mn)
  /\ (doe = 0 -> yoe = 0 /\ mp = 0)
  /\ (doe <> 0 ->
      civil_of_era 0 (doe - 1)
      = ((y * 12 + mn - 1) / 12, (y * 12 + mn - 1) mod 12)).
Proof.
  intros Hy Hm doe mn y.
  pose proof (firstDayCheck_true Hy Hm) as H.
  unfold firstDayCheck in H. fold doe mn y in H.
  apply andb_true_iff in H. destruct H as [H H4].
  apply andb_true_iff in H. destruct H as [H H3].
  apply andb_true_iff in H. destruct H as [H1 H2].
  apply Z.leb_le in H1. apply Z.ltb_lt in H2. apply pair_eqb_eq in H3.
  split; [lia |]. split; [exact H3 |]. split.
  - intro E. rewrite E in H4. simpl in H4.
    apply andb_true_iff in H4. destruct H4 as [Ha Hb].
    split; now apply Z.eqb_eq.
  - intro E. apply Z.eqb_neq in E. rewrite E in H4. now apply pair_eqb_eq.
Qed.

(** The first of a month is a day of that month. *)
Lemma civil_MakeDay (year month : Z) :
  civil (MakeDay year month 1) = (year + month / 12, month mod 12).
Proof.
  destruct (MakeDay_first year month)
    as (era & yoe & mp & Hy & Hm & -> & Hmn & Hyr).
  destruct (firstDayCheck_facts Hy Hm) as (Hdoe & Hciv & _ & _).
  rewrite civil_era by exact Hdoe.
  rewrite civil_of_era_shift, Hciv. simpl fst. simpl snd.
  now rewrite Hyr, Hmn.
Qed.

(** The day before the first of a month is a day of the month before. *)
Lemma civil_MakeDay_pred (year month : Z) :
  civil (MakeDay year month 1 - 1)
  = ((year * 12 + month - 1) / 12, (year * 12 + month - 1) mod 12).
Proof.
  destruct (MakeDay_first year month)
    as (era & yoe & mp & Hy & Hm & -> & Hmn & Hyr).
  destruct (firstDayCheck_facts Hy Hm) as (Hdoe & _ & Hzero & Hpred).
  set (doe := dayOfEra yoe mp) in *.
  set (mn := civilMonth mp) in *.
  set (y := if mn <? 2 then yoe + 1 else yoe) in *.
  assert (Hmonth : year * 12 + month = (y + era * 400) * 12 + mn).
  { rewrite Hyr, Hmn. Z.div_mod_to_equations. lia. }
  assert (Hmnb : 0 <= mn < 12).
  { rewrite Hmn. apply Z.mod_pos_bound. lia. }
  rewrite Hmonth.
  destruct (Z.eq_dec doe 0) as [E | NE].
  - destruct (Hzero E) as [-> ->]. rewrite E.
    replace (era * 146097 + 0 - 719468 - 1)
      with ((era - 1) * 146097 + 146096 - 719468) by lia.
    rewrite civil_era by lia. rewrite civil_of_era_shift.
    subst y mn. vm_compute civilMonth. cbv iota beta.
    change (civil_of_era 0 146096) with (400, 1). simpl fst. simpl snd.
    change (2 <? 2) with false. cbv iota.
    f_equal; Z.div_mod_to_equations; lia.
  - replace (era * 146097 + doe - 719468 - 1)
      with (era * 146097 + (doe - 1) - 719468) by lia.
    rewrite civil_era by lia.
    rewrite civil_of_era_shift, (Hpred NE). simpl fst. simpl snd.
    f_equal; Z.div_mod_to_equations; lia.
Qed.

(** The UTC day of local midnight of day [D], by the sign of the offset. *)
Lemma day_at_or_west (D tza : Z) :
  - msPerDay < tza <= 0 -> (D * msPerDay - tza) / msPerDay = D.
Proof. unfold msPerDay. intro H. Z.div_mod_to_equations. lia. Qed.

Lemma day_east (D tza : Z) :
  0 < tza <= msPerDay -> (D * msPerDay - tza) / msPerDay = D - 1.
Proof. unfold msPerDay. intro H. Z.div_mod_to_equations. lia. Qed.

Lemma length_append (s t : string) :
  String.length (s ++ t) = (String.length s + String.length t)%nat.
Proof. induction s as [| a s IH]; simpl; [reflexivity | now rewrite IH]. Qed.

Lemma pad_length (w : nat) : forall n, String.length (pad w n) = w.
Proof.
  induction w as [| w IH]; intro n; simpl; [reflexivity |].
  rewrite length_append, IH. simpl. lia.
Qed.

Lemma substring_all (s : string) : substring 0 (String.length s) s = s.
Proof. induction s as [| a s IH]; simpl; [reflexivity | now rewrite IH]. Qed.

(** Within the years 0 to 9999 the date has the form YYYY-MM. *)
Lemma slice7_toISOString (t y mn : Z) :
  civil (t / msPerDay) = (y, mn) -> 0 <= y <= 9999 ->
  slice7 (toISOString_date t) = (pad 4 y ++ "-" ++ pad 2 (mn + 1))%string.
Proof.
  intros Hc Hy. unfold toISOString_date, YearFromTime, MonthFromTime.
  rewrite Hc. simpl fst. simpl snd. cbv zeta.
  destruct (Z.leb_spec 0 y); [| lia]. destruct (Z.leb_spec y 9999); [| lia].
  cbn [andb]. unfold slice7.
  rewrite <- (substring_all (pad 4 y ++ "-" ++ pad 2 (mn + 1))) at 2.
  rewrite !length_append, !pad_length. reflexivity.
Qed.

(** From the year 100 on, the year given to [new Date] is taken as it is. *)
Lemma Date_ymd_year (c : Clock) (year month : Z) :
  100 <= year ->
  Date_ymd c year month 1
  = MakeDay year month 1 * msPerDay
    - LocalTZA c (MakeDay year month 1 * msPerDay).
Proof.
  intro H. unfold Date_ymd.
  destruct (Z.leb_spec 0 year); [| lia]. destruct (Z.leb_spec year 99); [lia |].
  reflexivity.
Qed.

(** X6: where local time is never ahead of UTC, the dates are the
    twelve months ending at the current month. *)
Theorem months_at_or_west_of_Greenwich (c : Clock) :
  100 <= getFullYear c <= 9999 -> 0 <= getMonth c <= 11 ->
  (forall t, - msPerDay < LocalTZA c t <= 0) ->
  months c = Spec.monthWindow (getFullYear c) (getMonth c).
Proof.
  intros Hy Hm Htz. unfold months, Spec.monthWindow.
  apply map_ext_in. intros i Hi.
  assert (Hib : 0 <= i <= 11) by (simpl in Hi; lia).
  cbv zeta.
  rewrite slice7_toISOString
    with (y := getFullYear c + (getMonth c - i) / 12)
         (mn := (getMonth c - i) mod 12).
  - replace (getFullYear c + (getMonth c - i) / 12)
      with ((getFullYear c * 12 + getMonth c - i) / 12)
      by (Z.div_mod_to_equations; lia).
    replace ((getMonth c - i) mod 12)
      with ((getFullYear c * 12 + getMonth c - i) mod 12)
      by (Z.div_mod_to_equations; lia).
    reflexivity.
  - rewrite Date_ymd_year by lia. rewrite day_at_or_west by apply Htz.
    apply civil_MakeDay.
  - Z.div_mod_to_equations. lia.
Qed.

(** X7: where local time is always ahead of UTC, the dates are the
    twelve months ending at the month before the current one. *)
Theorem months_east_of_Greenwich (c : Clock) :
  100 <= getFullYear c <= 9999 -> 0 <= getMonth c <= 11 ->
  (forall t, 0 < LocalTZA c t <= msPerDay) ->
  months c = Spec.monthWindow (getFullYear c) (getMonth c - 1).
Proof.
  intros Hy Hm Htz. unfold months, Spec.monthWindow.
  apply map_ext_in. intros i Hi.
  assert (Hib : 0 <= i <= 11) by (simpl in Hi; lia).
  cbv zeta.
  rewrite slice7_toISOString
    with (y := (getFullYear c * 12 + (getMonth c - i) - 1) / 12)
         (mn := (getFullYear c * 12 + (getMonth c - i) - 1) mod 12).
  - replace (getFullYear c * 12 + (getMonth c - i) - 1)
      with (getFullYear c * 12 + (getMonth c - 1) - i) by lia.
    reflexivity.
  - rewrite Date_ymd_year by lia. rewrite day_east by apply Htz.
    apply civil_MakeDay_pred.
  - Z.div_mod_to_equations. lia.
Qed.

End MonthWindow.

(** ** The month window of getPerformanceData *)

Lemma months_length (c : JsDate.Clock) : length (months c) = 12%nat.
Proof. unfold months. rewrite length_map. reflexivity. Qed.

(** At UTC, and west of Greenwich, local midnight of the first of a
    month falls in the same month of UTC. *)
Example months_utc :
  months Sample.utc = Spec.monthWindow 2026 10
  /\ months Sample.new_york = Spec.monthWindow 2026 10.
Proof. split; vm_compute; reflexivity. Qed.

(** Where summer time puts local time ahead of UTC for part of the
    year, a month is repeated and another is missing. *)
Example months_london :
  months Sample.london
  = [ "2025-12"; "2026-01"; "2026-02"; "2026-03"; "2026-03"; "2026-04";
      "2026-05"; "2026-06"; "2026-07"; "2026-08"; "2026-09"; "2026-11" ].
Proof. vm_compute. reflexivity. Qed.

(** C4: the twelve dates are claimed to be the months from the current
    month minus 11 through the current month.  The dates are those of
    [toISOString], which is in UTC, of local midnight of the first of
    each month.  On 3 November 2026 at UTC+05:30 that instant is 18:30
    UTC of the last day of the month before: the series runs from
    2025-11 to 2026-10 and the current month is missing. *)
Theorem getPerformanceData_dates_east_of_Greenwich :
  map Point.date (getPerformanceData Sample.kolkata "all" "all")
  = map Some [ "2025-11"; "2025-12"; "2026-01"; "2026-02"; "2026-03";
               "2026-04"; "2026-05"; "2026-06"; "2026-07"; "2026-08";
               "2026-09"; "2026-10" ]
  /\ Spec.monthWindow 2026 10
     = [ "2025-12"; "2026-01"; "2026-02"; "2026-03"; "2026-04"; "2026-05";
         "2026-06"; "2026-07"; "2026-08"; "2026-09"; "2026-10"; "2026-11" ]
  /\ map Point.date (getPerformanceData Sample.kolkata "all" "all")
     <> map Some (Spec.monthWindow 2026 10).
Proof.
  split; [vm_compute; reflexivity |].
  split; [vm_compute; reflexivity |].
  vm_compute. discriminate.
Qed.

(** ** The filter bar *)

Import FilterBar.

Lemma states_consistent (s : State) : In s states -> consistent s.
Proof.
  intro H. vm_compute in H.
  repeat (destruct H as [<- | H];
          [intro Hne;
           first [ now elim Hne
                 | eexists; split; [vm_compute; reflexivity |];
                   simpl; auto ] |]).
  destruct H.
Qed.

Ltac in_states :=
  vm_compute; repeat (first [left; reflexivity | right]).

Lemma states_closed (s : State) (op : Op) :
  In s states -> offered s op -> In (run op s) states.
Proof.
  intros Hs Hop. vm_compute in Hs.
  repeat (destruct Hs as [<- | Hs];
          [destruct op as [v | f |];
           [ vm_compute in Hop;
             repeat (destruct Hop as [<- | Hop]; [in_states |]);
             destruct Hop
           | vm_compute in Hop;
             repeat (destruct Hop as [<- | Hop]; [in_states |]);
             destruct Hop
           | in_states ] |]).
  destruct Hs.
Qed.

Lemma runs_states (ops : list Op) :
  forall s, In s states -> allOffered s ops -> In (runs ops s) states.
Proof.
  induction ops as [| op ops IH]; intros s Hs Hops.
  - exact Hs.
  - destruct Hops as [Hop Hrest]. simpl.
    apply IH; [apply states_closed |]; assumption.
Qed.

(** C6, as stated, fails: the fund-change handler adopts the fund's
    vehicle only when the vehicle filter is "all".  With the vehicle
    filter at iv1, a change of the fund filter to wanye, a fund of iv2,
    leaves the vehicle filter at iv1. *)
Lemma handleFundChange_keeps_vehicle :
  runs [VehicleChange "iv1"; FundChange "wanye"] initial
  = {| selectedVehicleId := "iv1"; selectedFundId := "wanye" |}
  /\ ~ consistent (runs [VehicleChange "iv1"; FundChange "wanye"] initial).
Proof.
  split; [reflexivity |].
  intro H. destruct H as (fund & Hfind & Hv).
  - discriminate.
  - vm_compute in Hfind. injection Hfind as <-.
    destruct Hv as [Hv | Hv]; discriminate Hv.
Qed.

(** The scenario of the specification: selecting pbventures with no
    vehicle filter adopts iv1; selecting iv2 next resets the fund. *)
Example filter_resolution :
  runs [FundChange "pbventures"] initial
  = {| selectedVehicleId := "iv1"; selectedFundId := "pbventures" |}
  /\ runs [FundChange "pbventures"; VehicleChange "iv2"] initial
     = {| selectedVehicleId := "iv2"; selectedFundId := "all" |}
  /\ runs [FundChange "pbventures"; Clear] initial = initial.
Proof. repeat split. Qed.

(** * Further properties of the data service *)

Lemma fundIds_not_all (f : string) : In f Spec.fundIds -> f <> "all".
Proof.
  unfold Spec.fundIds. intros H E. subst f.
  simpl in H. repeat (destruct H as [H | H]; [discriminate H |]). exact H.
Qed.

(** Every fund of the table has metrics of its own and belongs to one
    of the two vehicles. *)
Lemma getFunds_entries :
  Forall (fun fund =>
            exists m,
              own fundMetrics (Fund.id fund) = Some m
              /\ getPortfolioMetrics "all" (Fund.id fund) = Own m)
         getFunds.
Proof. repeat (constructor; [eexists; split; reflexivity |]). constructor. Qed.

Lemma find_fund_known (f : string) :
  In f Spec.fundIds ->
  exists fund,
    find (fun x => Fund.id x =? f) getFunds = Some fund
    /\ In fund getFunds /\ Fund.id fund = f
    /\ In (Fund.vehicleId fund) Spec.vehicleIds.
Proof.
  unfold Spec.fundIds. intro H.
  repeat (destruct H as [<- | H];
          [eexists; split; [reflexivity |];
           split; [vm_compute; tauto |];
           split; [reflexivity | vm_compute; tauto] |]).
  destruct H.
Qed.

(** X1: with no fund of the table selected and no vehicle filter,
    getFundAllocation returns one entry per fund, in the order of the
    table, at the fund's global allocation; these percentages sum,
    exactly computed, to 100 within 0.02. *)
Theorem getFundAllocation_unfiltered (f : string) :
  ~ In f Spec.fundIds ->
  map Allocation.fundId (getFundAllocation "all" f) = Spec.fundIds
  /\ map Allocation.allocation (getFundAllocation "all" f)
     = map Fund.allocation getFunds
  /\ exists s,
      exact_sum (map Allocation.allocation (getFundAllocation "all" f))
      = Some s
      /\ (Qabs (s - 100) <= 2 # 100)%Q.
Proof.
  intro H.
  rewrite getFundAllocation_no_fund
    by (right; rewrite getFunds_ids; exact H).
  split; [reflexivity |]. split; [reflexivity |].
  eexists. split; [vm_compute; reflexivity |].
  apply Qle_bool_iff. vm_compute. reflexivity.
Qed.

Lemma getFundAllocation_unfiltered_witness :
  map Allocation.fundId (getFundAllocation "all" "all") = Spec.fundIds.
Proof.
  apply (@getFundAllocation_unfiltered "all").
  intro H. exact (fundIds_not_all H eq_refl).
Defined.

(** X2: whatever the two ids, every entry getFundAllocation returns is
    that of a fund of the table, carries the name and colour of the
    fund, and has the fund's own totalCommitments as value: the value
    is never [undefined] and never a vehicle's or the portfolio's. *)
Theorem getFundAllocation_entries (v f : string) :
  Forall (fun a =>
            exists fund m,
              In fund getFunds
              /\ Allocation.fundId a = Fund.id fund
              /\ Allocation.fundName a = Fund.name fund
              /\ Allocation.color a = Fund.color fund
              /\ own fundMetrics (Fund.id fund) = Some m
              /\ Allocation.value a = Num (Metrics.totalCommitments m))
         (getFundAllocation v f).
Proof.
  destruct (in_dec string_dec f Spec.fundIds) as [Hin | Hout].
  - unfold Spec.fundIds in Hin.
    repeat (destruct Hin as [<- | Hin];
            [constructor; [| constructor];
             do 2 eexists; split; [| repeat split; reflexivity];
             vm_compute; tauto |]).
    destruct Hin.
  - rewrite getFundAllocation_no_fund
      by (right; rewrite getFunds_ids; exact Hout).
    unfold vehicleView. apply Forall_map.
    assert (Hsub : forall l, incl l getFunds ->
              Forall (fun fund =>
                        exists m,
                          own fundMetrics (Fund.id fund) = Some m
                          /\ getPortfolioMetrics "all" (Fund.id fund) = Own m)
                     l).
    { intros l Hl. apply Forall_forall. intros x Hx.
      exact (proj1 (Forall_forall _ _) getFunds_entries x (Hl x Hx)). }
    assert (Hall : forall l, incl l getFunds ->
              Forall (fun fund =>
                 exists fund0 m,
                   In fund0 getFunds
                   /\ Fund.id fund = Fund.id fund0
                   /\ Fund.name fund = Fund.name fund0
                   /\ Fund.color fund = Fund.color fund0
                   /\ own fundMetrics (Fund.id fund0) = Some m
                   /\ prop Metrics.totalCommitments
                           (getPortfolioMetrics "all" (Fund.id fund))
                      = Num (Metrics.totalCommitments m)) l).
    { intros l Hl. apply Forall_forall. intros x Hx.
      destruct (proj1 (Forall_forall _ _) (Hsub l Hl) x Hx) as (m & Hm & Hg).
      exists x, m. rewrite Hg. repeat split; auto. }
    destruct (negb (v =? "all")).
    + apply Hall. intros x Hx. apply filter_In in Hx. tauto.
    + apply Hall. apply incl_refl.
Qed.

Lemma series_dates (m : Js.member Multipliers.t) (ms : list string) :
  length ms = 12%nat ->
  map Point.date (map (adjust m) (fullPerformance ms)) = map Some ms.
Proof.
  intro Hlen.
  do 12 (destruct ms as [| ? ms]; [discriminate Hlen |]).
  destruct ms; [reflexivity | discriminate Hlen].
Qed.

(** X3: the dates of the series do not depend on the filters: whatever
    the two ids, the twelve points carry the twelve month strings of
    the clock, none of them [undefined]. *)
Theorem getPerformanceData_dates (c : JsDate.Clock) (v f : string) :
  map Point.date (getPerformanceData c v f) = map Some (months c).
Proof.
  unfold getPerformanceData. apply series_dates, months_length.
Qed.

(** X4: for a fund of the table the three views do not depend on the
    vehicle filter: adopting the fund's vehicle, as the filter bar
    does, changes nothing on display. *)
Theorem fund_views_ignore_vehicle (c : JsDate.Clock) (v v' f : string) :
  In f Spec.fundIds ->
  getPortfolioMetrics v f = getPortfolioMetrics v' f
  /\ getFundAllocation v f = getFundAllocation v' f
  /\ getPerformanceData c v f = getPerformanceData c v' f.
Proof.
  intro H. pose proof (neq_all (fundIds_not_all H)) as Hne.
  split; [| split].
  - unfold getPortfolioMetrics. now rewrite Hne.
  - unfold Spec.fundIds in H.
    repeat (destruct H as [<- | H]; [reflexivity |]). destruct H.
  - unfold getPerformanceData, selectMultipliers. cbv zeta. now rewrite Hne.
Qed.

Lemma fund_views_ignore_vehicle_witness :
  getFundAllocation "iv2" "mjk" = getFundAllocation "all" "mjk".
Proof.
  apply (@fund_views_ignore_vehicle Sample.utc "iv2" "all" "mjk").
  simpl. tauto.
Defined.

Lemma getPerformanceData_round2_witness :
  getPerformanceData Sample.utc "iv1" "all"
  = map (Spec.point (Spec.multipliers "iv1" "all"))
        (fullPerformance (months Sample.utc)).
Proof. apply (@getPerformanceData_round2 Sample.utc "iv1" "all"). reflexivity. Defined.

Lemma months_at_or_west_of_Greenwich_witness :
  months Sample.new_york = Spec.monthWindow 2026 10.
Proof.
  apply (months_at_or_west_of_Greenwich Sample.new_york).
  - simpl. lia.
  - simpl. lia.
  - intro t. unfold JsDate.msPerDay. simpl. lia.
Defined.

Lemma months_east_of_Greenwich_witness :
  months Sample.kolkata = Spec.monthWindow 2026 9.
Proof.
  apply (months_east_of_Greenwich Sample.kolkata).
  - simpl. lia.
  - simpl. lia.
  - intro t. unfold JsDate.msPerDay. simpl. lia.
Defined.

(** * The month strings in any time zone, and the labels of the chart *)

Section Zones.
Import JsDate Calendar PerformanceChart.
Local Open Scope Z_scope.

Lemma Forall2_map_in (A B C : Type) (R : B -> C -> Prop)
      (f : A -> B) (g : A -> C) (l : list A) :
  (forall x, In x l -> R (f x) (g x)) -> Forall2 R (map f l) (map g l).
Proof.
  induction l as [| a l IH]; intro H; simpl; constructor.
  - apply H. now left.
  - apply IH. intros x Hx. apply H. now right.
Qed.

Lemma combine_map (A B C : Type) (g : A -> B) (h : A -> C) (l : list A) :
  combine (map g l) (map h l) = map (fun x => (g x, h x)) l.
Proof. induction l as [| a l IH]; simpl; [reflexivity | now rewrite IH]. Qed.

(** The month string of one step of the loop, where local midnight is
    not ahead of UTC: the nominal month. *)
Lemma month_string_nominal (c : Clock) (i : Z) :
  100 <= getFullYear c <= 9999 -> 0 <= getMonth c <= 11 -> 0 <= i <= 11 ->
  - msPerDay
  < LocalTZA c (MakeDay (getFullYear c) (getMonth c - i) 1 * msPerDay) <= 0 ->
  slice7 (toISOString_date (Date_ymd c (getFullYear c) (getMonth c - i) 1))
  = (pad 4 ((getFullYear c * 12 + getMonth c - i) / 12) ++ "-"
     ++ pad 2 ((getFullYear c * 12 + getMonth c - i) mod 12 + 1))%string.
Proof.
  intros Hy Hm Hi Htz.
  apply slice7_toISOString; [| Z.div_mod_to_equations; lia].
  rewrite Date_ymd_year by lia. rewrite day_at_or_west by exact Htz.
  rewrite civil_MakeDay. f_equal; Z.div_mod_to_equations; lia.
Qed.

(** The same where local midnight is ahead of UTC: the month before. *)
Lemma month_string_before (c : Clock) (i : Z) :
  100 <= getFullYear c <= 9999 -> 0 <= getMonth c <= 11 -> 0 <= i <= 11 ->
  0 < LocalTZA c (MakeDay (getFullYear c) (getMonth c - i) 1 * msPerDay)
  <= msPerDay ->
  slice7 (toISOString_date (Date_ymd c (getFullYear c) (getMonth c - i) 1))
  = (pad 4 ((getFullYear c * 12 + (getMonth c - 1) - i) / 12) ++ "-"
     ++ pad 2 ((getFullYear c * 12 + (getMonth c - 1) - i) mod 12 + 1))%string.
Proof.
  intros Hy Hm Hi Htz.
  apply slice7_toISOString; [| Z.div_mod_to_equations; lia].
  rewrite Date_ymd_year by lia. rewrite day_east by exact Htz.
  rewrite civil_MakeDay_pred.
  replace (getFullYear c * 12 + (getMonth c - i) - 1)
    with (getFullYear c * 12 + (getMonth c - 1) - i) by lia.
  reflexivity.
Qed.

(** X8: in any time zone whose offset from UTC stays within a day, each of
    the twelve dates is the month of its place in the window that ends
    at the current month, or the month before it. *)
Theorem months_within_a_day (c : Clock) :
  100 <= getFullYear c <= 9999 -> 0 <= getMonth c <= 11 ->
  (forall t, - msPerDay < LocalTZA c t <= msPerDay) ->
  Forall2 (fun date w => date = fst w \/ date = snd w)
          (months c)
          (combine (Spec.monthWindow (getFullYear c) (getMonth c))
                   (Spec.monthWindow (getFullYear c) (getMonth c - 1))).
Proof.
  intros Hy Hm Htz. unfold months, Spec.monthWindow.
  rewrite combine_map. apply Forall2_map_in. intros i Hi.
  assert (Hib : 0 <= i <= 11) by (simpl in Hi; lia).
  cbv zeta. simpl fst. simpl snd.
  destruct (Z_le_gt_dec
              (LocalTZA c (MakeDay (getFullYear c) (getMonth c - i) 1
                           * msPerDay)) 0) as [Hle | Hgt].
  - left. apply month_string_nominal; try assumption.
    split; [apply Htz | exact Hle].
  - right. apply month_string_before; try assumption.
    split; [lia | apply Htz].
Qed.

Lemma months_within_a_day_witness :
  Forall2 (fun date w => date = fst w \/ date = snd w)
          (months Sample.london)
          (combine (Spec.monthWindow 2026 10) (Spec.monthWindow 2026 9)).
Proof.
  apply (months_within_a_day Sample.london).
  - simpl. lia.
  - simpl. lia.
  - intro t. unfold msPerDay. simpl.
    destruct ((_ <=? t) && (t <? _)); lia.
Defined.

(** Every string YYYY-MM, followed by "-01", reads back as its year
    and month. *)
Lemma digitValue_digit (k : Z) :
  0 <= k < 10 ->
  digitValue (Ascii.ascii_of_nat (48 + Z.to_nat k)) = Some k.
Proof.
  intro H.
  assert (E : k = 0 \/ k = 1 \/ k = 2 \/ k = 3 \/ k = 4 \/ k = 5 \/ k = 6
              \/ k = 7 \/ k = 8 \/ k = 9) by lia.
  repeat (destruct E as [-> | E]; [reflexivity |]). subst k. reflexivity.
Qed.

Lemma parseFirstOfMonth_pad (y mn : Z) :
  0 <= y <= 9999 -> 0 <= mn <= 11 ->
  parseFirstOfMonth ((pad 4 y ++ "-" ++ pad 2 (mn + 1)) ++ "-01")%string
  = Some (y, mn).
Proof.
  intros Hy Hm. cbn [pad digit String.append parseFirstOfMonth].
  rewrite !digitValue_digit by (apply Z.mod_pos_bound; lia).
  destruct (Z.leb_spec 1 ((((mn + 1) / 10) mod 10) * 10 + (mn + 1) mod 10));
    [| Z.div_mod_to_equations; lia].
  destruct (Z.leb_spec ((((mn + 1) / 10) mod 10) * 10 + (mn + 1) mod 10) 12);
    [| Z.div_mod_to_equations; lia].
  cbn [andb]. f_equal. f_equal; Z.div_mod_to_equations; lia.
Qed.

Lemma formatDate_pad (offsetAt : Z -> Z) (y mn : Z) :
  0 <= y <= 9999 -> 0 <= mn <= 11 ->
  formatDate offsetAt (Some (pad 4 y ++ "-" ++ pad 2 (mn + 1))%string)
  = Some (toLocaleDateString offsetAt (MakeDay y mn 1 * msPerDay)).
Proof.
  intros Hy Hm. pose proof (parseFirstOfMonth_pad Hy Hm) as Hp.
  unfold formatDate.
  destruct (pad 4 y ++ "-" ++ pad 2 (mn + 1))%string as [| a s] eqn:E.
  - discriminate Hp.
  - now rewrite Hp.
Qed.

(** The label of midnight UTC of the first of a month, where local time
    is not behind UTC: that month. *)
Lemma toLocaleDateString_same (offsetAt : Z -> Z) (n : Z) :
  0 <= offsetAt (MakeDay (n / 12) (n mod 12) 1 * msPerDay) < msPerDay ->
  toLocaleDateString offsetAt (MakeDay (n / 12) (n mod 12) 1 * msPerDay)
  = (monthShort (n mod 12) ++ " " ++ pad 2 (n / 12))%string.
Proof.
  intro H. unfold toLocaleDateString, MonthFromTime, YearFromTime.
  cbv zeta.
  replace ((MakeDay (n / 12) (n mod 12) 1 * msPerDay
            + offsetAt (MakeDay (n / 12) (n mod 12) 1 * msPerDay))
           / msPerDay)
    with (MakeDay (n / 12) (n mod 12) 1)
    by (revert H; unfold msPerDay; intro H; Z.div_mod_to_equations; lia).
  rewrite civil_MakeDay. simpl fst. simpl snd.
  replace (n / 12 + n mod 12 / 12) with (n / 12)
    by (Z.div_mod_to_equations; lia).
  replace ((n mod 12) mod 12) with (n mod 12)
    by (Z.div_mod_to_equations; lia).
  reflexivity.
Qed.

(** The same where local time is behind UTC: the month before. *)
Lemma toLocaleDateString_before (offsetAt : Z -> Z) (n : Z) :
  - msPerDay <= offsetAt (MakeDay (n / 12) (n mod 12) 1 * msPerDay) < 0 ->
  toLocaleDateString offsetAt (MakeDay (n / 12) (n mod 12) 1 * msPerDay)
  = (monthShort ((n - 1) mod 12) ++ " " ++ pad 2 ((n - 1) / 12))%string.
Proof.
  intro H. unfold toLocaleDateString, MonthFromTime, YearFromTime.
  cbv zeta.
  replace ((MakeDay (n / 12) (n mod 12) 1 * msPerDay
            + offsetAt (MakeDay (n / 12) (n mod 12) 1 * msPerDay))
           / msPerDay)
    with (MakeDay (n / 12) (n mod 12) 1 - 1)
    by (revert H; unfold msPerDay; intro H; Z.div_mod_to_equations; lia).
  rewrite civil_MakeDay_pred. simpl fst. simpl snd.
  replace (n / 12 * 12 + n mod 12 - 1) with (n - 1)
    by (Z.div_mod_to_equations; lia).
  reflexivity.
Qed.

Lemma labels_of_months (offsetAt : Z -> Z) (c : Clock) (v f : string) :
  labels offsetAt (getPerformanceData c v f)
  = map (fun s => formatDate offsetAt (Some s)) (months c).
Proof.
  unfold labels, getPerformanceData.
  rewrite <- (map_map Point.date (formatDate offsetAt)).
  rewrite series_dates by apply months_length.
  now rewrite map_map.
Qed.

(** X20: in a zone that is always ahead of UTC, or always behind UTC, by
    less than a day, the labels of the chart over the series are the
    twelve months that end at the month before the current one: east
    of Greenwich the month strings are a month early and are labelled
    as they are, west of it they are right and are labelled a month
    early. *)
Theorem labels_off_Greenwich (offsetAt : Z -> Z) (c : Clock) (v f : string) :
  100 <= getFullYear c <= 9999 -> 0 <= getMonth c <= 11 ->
  (forall t, 0 < LocalTZA c t < msPerDay /\ 0 < offsetAt t < msPerDay)
  \/ (forall t, - msPerDay < LocalTZA c t < 0
                /\ - msPerDay < offsetAt t < 0) ->
  labels offsetAt (getPerformanceData c v f)
  = map Some (Expected.labelWindow (getFullYear c) (getMonth c - 1)).
Proof.
  intros Hy Hm Hz. rewrite labels_of_months.
  unfold months, Expected.labelWindow. rewrite !map_map.
  apply map_ext_in. intros i Hi.
  assert (Hib : 0 <= i <= 11) by (simpl in Hi; lia).
  cbv zeta. destruct Hz as [He | Hw].
  - rewrite month_string_before; try assumption;
      [| specialize (He (MakeDay (getFullYear c) (getMonth c - i) 1
                         * msPerDay)); lia].
    rewrite formatDate_pad by (Z.div_mod_to_equations; lia).
    f_equal. apply toLocaleDateString_same.
    match goal with |- context [offsetAt ?t] => specialize (He t) end. lia.
  - rewrite month_string_nominal; try assumption;
      [| specialize (Hw (MakeDay (getFullYear c) (getMonth c - i) 1
                         * msPerDay)); lia].
    rewrite formatDate_pad by (Z.div_mod_to_equations; lia).
    f_equal. rewrite toLocaleDateString_before.
    + replace (getFullYear c * 12 + getMonth c - i - 1)
        with (getFullYear c * 12 + (getMonth c - 1) - i) by lia.
      reflexivity.
    + match goal with |- context [offsetAt ?t] => specialize (Hw t) end. lia.
Qed.

(** X21: where local time is UTC, the labels are the twelve months that end
    at the current month. *)
Theorem labels_at_Greenwich (offsetAt : Z -> Z) (c : Clock) (v f : string) :
  100 <= getFullYear c <= 9999 -> 0 <= getMonth c <= 11 ->
  (forall t, LocalTZA c t = 0 /\ offsetAt t = 0) ->
  labels offsetAt (getPerformanceData c v f)
  = map Some (Expected.labelWindow (getFullYear c) (getMonth c)).
Proof.
  intros Hy Hm Hz. rewrite labels_of_months.
  unfold months, Expected.labelWindow. rewrite !map_map.
  apply map_ext_in. intros i Hi.
  assert (Hib : 0 <= i <= 11) by (simpl in Hi; lia).
  cbv zeta.
  rewrite month_string_nominal; try assumption;
    [| specialize (Hz (MakeDay (getFullYear c) (getMonth c - i) 1
                       * msPerDay)); unfold msPerDay in *; lia].
  rewrite formatDate_pad by (Z.div_mod_to_equations; lia).
  f_equal. apply toLocaleDateString_same.
  match goal with |- context [offsetAt ?t] => specialize (Hz t) end.
  unfold msPerDay in *. lia.
Qed.

End Zones.

Lemma labels_off_Greenwich_witness :
  PerformanceChart.labels (fun _ => 19800000%Z)
         (getPerformanceData Sample.kolkata "all" "all")
  = map Some [ "Nov 25"; "Dec 25"; "Jan 26"; "Feb 26"; "Mar 26"; "Apr 26";
               "May 26"; "Jun 26"; "Jul 26"; "Aug 26"; "Sep 26"; "Oct 26" ]
  /\ PerformanceChart.labels (fun _ => (-18000000)%Z)
            (getPerformanceData Sample.new_york "all" "all")
     = map Some [ "Nov 25"; "Dec 25"; "Jan 26"; "Feb 26"; "Mar 26"; "Apr 26";
                  "May 26"; "Jun 26"; "Jul 26"; "Aug 26"; "Sep 26"; "Oct 26" ].
Proof.
  split.
  - apply (@labels_off_Greenwich (fun _ => 19800000%Z) Sample.kolkata
                                 "all" "all").
    + simpl. lia.
    + simpl. lia.
    + left. intro t. unfold JsDate.msPerDay. simpl. lia.
  - apply (@labels_off_Greenwich (fun _ => (-18000000)%Z) Sample.new_york
                                 "all" "all").
    + simpl. lia.
    + simpl. lia.
    + right. intro t. unfold JsDate.msPerDay. simpl. lia.
Defined.

Lemma labels_at_Greenwich_witness :
  PerformanceChart.labels (fun _ => 0%Z) (getPerformanceData Sample.utc "all" "all")
  = map Some [ "Dec 25"; "Jan 26"; "Feb 26"; "Mar 26"; "Apr 26"; "May 26";
               "Jun 26"; "Jul 26"; "Aug 26"; "Sep 26"; "Oct 26"; "Nov 26" ].
Proof.
  apply (@labels_at_Greenwich (fun _ => 0%Z) Sample.utc "all" "all").
  - simpl. lia.
  - simpl. lia.
  - intro t. simpl. lia.
Defined.

(** * The invariant of the filter bar *)

(** A change of the vehicle filter, to any value, keeps the selected
    fund "all" or a fund of the table, and keeps the state consistent. *)
Lemma handleVehicleChange_keeps (v : string) (s : State) :
  (selectedFundId s = "all" \/ In (selectedFundId s) Spec.fundIds) ->
  consistent s ->
  (selectedFundId (handleVehicleChange v s) = "all"
   \/ In (selectedFundId (handleVehicleChange v s)) Spec.fundIds)
  /\ consistent (handleVehicleChange v s).
Proof.
  intros Hf Hc. destruct s as [sv sf].
  cbn [selectedFundId selectedVehicleId] in *.
  unfold handleVehicleChange. cbn [selectedFundId selectedVehicleId].
  destruct (String.eqb_spec v sv) as [_ | _]; cbn [negb];
    [split; assumption |].
  destruct Hf as [-> | Hin].
  - change (negb ("all" =? "all")) with false. cbv iota.
    split; [left; reflexivity | intro Hne; now elim Hne].
  - rewrite (neq_all (fundIds_not_all Hin)).
    destruct (find_fund_known Hin) as (fund & Hfind & _ & Hid & _).
    rewrite Hfind.
    destruct (String.eqb_spec (Fund.vehicleId fund) v) as [Eo | No];
      destruct (String.eqb_spec v "all") as [Ea | Na]; cbn [negb andb];
      cbn [selectedFundId selectedVehicleId].
    + split; [now right |]. intros _. exists fund.
      cbn [selectedFundId selectedVehicleId]. auto.
    + split; [now right |]. intros _. exists fund.
      cbn [selectedFundId selectedVehicleId]. auto.
    + split; [now right |]. intros _. exists fund.
      cbn [selectedFundId selectedVehicleId]. auto.
    + split; [now left |]. intro Hne. now elim Hne.
Qed.

(** A change of the fund filter to "all" leaves the vehicle filter. *)
Lemma handleFundChange_all (s : State) :
  handleFundChange "all" s
  = {| selectedVehicleId := selectedVehicleId s; selectedFundId := "all" |}.
Proof.
  destruct s as [sv sf]. unfold handleFundChange.
  cbn [selectedFundId selectedVehicleId].
  change (negb ("all" =? "all")) with false. cbn [andb].
  destruct (String.eqb_spec "all" sf) as [<- | _]; reflexivity.
Qed.

(** The fund-change handler never touches a vehicle filter other than
    "all", whatever the value chosen. *)
Lemma handleFundChange_vehicle (f : string) (s : State) :
  selectedVehicleId s <> "all" ->
  selectedVehicleId (handleFundChange f s) = selectedVehicleId s.
Proof.
  intro Hv. destruct s as [sv sf]. unfold handleFundChange.
  cbn [selectedFundId selectedVehicleId] in *.
  rewrite (neq_all' Hv), Bool.andb_false_r.
  destruct (negb (f =? sf)); reflexivity.
Qed.

(** A change of the fund filter to an option of the fund dropdown keeps
    the selected fund "all" or a fund of the table, and keeps the state
    consistent: with a vehicle selected, the dropdown lists the funds of
    that vehicle only. *)
Lemma handleFundChange_keeps (f : string) (s : State) :
  (selectedFundId s = "all" \/ In (selectedFundId s) Spec.fundIds) ->
  consistent s ->
  In f (fundOptions s) ->
  (selectedFundId (handleFundChange f s) = "all"
   \/ In (selectedFundId (handleFundChange f s)) Spec.fundIds)
  /\ consistent (handleFundChange f s).
Proof.
  intros Hf Hc Hin.
  destruct (String.eqb_spec f (selectedFundId s)) as [E | N].
  { unfold handleFundChange. rewrite E, String.eqb_refl. cbn [negb].
    split; assumption. }
  unfold fundOptions in Hin. cbv zeta in Hin.
  destruct Hin as [<- | Hin].
  { rewrite handleFundChange_all. cbn [selectedFundId].
    split; [now left | intro Hne; now elim Hne]. }
  destruct s as [sv sf]. cbn [selectedFundId selectedVehicleId] in *.
  apply in_map_iff in Hin. destruct Hin as (fund & Hid & Hfund).
  assert (Hg : In fund getFunds
               /\ (sv = "all" \/ sv = Fund.vehicleId fund)).
  { destruct (String.eqb_spec sv "all") as [Ea | Na]; cbn [negb] in Hfund.
    - split; [exact Hfund | now left].
    - apply filter_In in Hfund. destruct Hfund as [Hg Hv].
      apply String.eqb_eq in Hv. split; [exact Hg | now right]. }
  clear Hfund. destruct Hg as [Hg Hsv]. subst f.
  unfold handleFundChange. cbn [selectedFundId selectedVehicleId].
  assert (En : negb (Fund.id fund =? sf) = true)
    by (apply Bool.negb_true_iff; now apply String.eqb_neq).
  rewrite En. clear En N Hf Hc.
  vm_compute in Hg.
  repeat (destruct Hg as [<- | Hg];
          [destruct Hsv as [-> | ->];
           (split;
            [right; vm_compute; tauto
            | intros _; eexists; split;
              [vm_compute; reflexivity | left; reflexivity]]) |]).
  destruct Hg.
Qed.

Lemma runs_keeps (ops : list Op) :
  forall s,
    (selectedFundId s = "all" \/ In (selectedFundId s) Spec.fundIds) ->
    consistent s ->
    allFundsOffered s ops ->
    (selectedFundId (runs ops s) = "all"
     \/ In (selectedFundId (runs ops s)) Spec.fundIds)
    /\ consistent (runs ops s).
Proof.
  induction ops as [| op ops IH]; intros s Hf Hc Hops.
  - split; assumption.
  - destruct Hops as [Hop Hrest]. cbn [runs fold_left].
    change (fold_left (fun s0 op0 => run op0 s0) ops (run op s))
      with (runs ops (run op s)).
    assert (H : (selectedFundId (run op s) = "all"
                 \/ In (selectedFundId (run op s)) Spec.fundIds)
                /\ consistent (run op s)).
    { destruct op as [v | f |]; cbn [run].
      - now apply handleVehicleChange_keeps.
      - now apply handleFundChange_keeps.
      - split; [now left | intro Hne; now elim Hne]. }
    destruct H as [Hf' Hc']. now apply IH.
Qed.

(** C6, amended: starting from the default state, every sequence of
    operations (a vehicle change to any value whatever, a clear, and a
    fund change to one of the options the fund dropdown offers at that
    moment, which with a vehicle selected are the funds of that vehicle
    only) leaves a state in which the selected fund is "all" or a fund
    of the table, and which satisfies the invariant: if the fund filter
    is not "all", the vehicle of the selected fund is the vehicle filter,
    or the vehicle filter is "all".  A change of the fund filter to a
    fund of the table while the vehicle filter is "all" adopts that
    fund's vehicle.  The fund-change handler never resets or overrides a
    vehicle filter other than "all": for every value chosen and every
    state whose vehicle filter is not "all", the vehicle filter after
    the fund change is the one before. *)
Theorem offered_operations_consistent (ops : list Op) :
  allFundsOffered initial ops ->
  (selectedFundId (runs ops initial) = "all"
   \/ In (selectedFundId (runs ops initial)) (map Fund.id getFunds))
  /\ consistent (runs ops initial)
  /\ (forall fund current,
        In fund getFunds -> current <> Fund.id fund ->
        handleFundChange (Fund.id fund)
                         {| selectedVehicleId := "all";
                            selectedFundId := current |}
        = {| selectedVehicleId := Fund.vehicleId fund;
             selectedFundId := Fund.id fund |})
  /\ (forall f s,
        selectedVehicleId s <> "all" ->
        selectedVehicleId (handleFundChange f s) = selectedVehicleId s).
Proof.
  intro H.
  assert (K : (selectedFundId (runs ops initial) = "all"
               \/ In (selectedFundId (runs ops initial)) Spec.fundIds)
              /\ consistent (runs ops initial)).
  { apply runs_keeps; [now left | intro Hne; now elim Hne | exact H]. }
  destruct K as [Kf Kc].
  split; [rewrite getFunds_ids; exact Kf |].
  split; [exact Kc |]. split.
  - intros fund current Hin Hne.
    unfold handleFundChange. cbn [selectedFundId selectedVehicleId].
    assert (E : (Fund.id fund =? current) = false)
      by (apply String.eqb_neq; congruence).
    rewrite E. cbn [negb].
    vm_compute in Hin.
    repeat (destruct Hin as [<- | Hin]; [reflexivity |]).
    destruct Hin.
  - intros f s. apply handleFundChange_vehicle.
Qed.

Lemma offered_operations_consistent_witness :
  runs [FundChange "pbventures"; VehicleChange "iv2"; FundChange "wanye";
        VehicleChange "iv3"; VehicleChange "all"; FundChange "mjk"] initial
  = {| selectedVehicleId := "iv1"; selectedFundId := "mjk" |}
  /\ consistent
       (runs [FundChange "pbventures"; VehicleChange "iv2";
              FundChange "wanye"; VehicleChange "iv3"; VehicleChange "all";
              FundChange "mjk"] initial).
Proof.
  split; [reflexivity |].
  apply (@offered_operations_consistent
           [FundChange "pbventures"; VehicleChange "iv2"; FundChange "wanye";
            VehicleChange "iv3"; VehicleChange "all"; FundChange "mjk"]).
  simpl. vm_compute. tauto.
Defined.

(** * Further properties of the filter bar *)

Section FilterBarMore.
Import FilterBar FilterBarApi.

Lemma states_options (s : State) :
  In s states ->
  In (selectedVehicleId s) vehicleOptions
  /\ In (selectedFundId s) (fundOptions s).
Proof.
  intro H. vm_compute in H.
  repeat (destruct H as [<- | H]; [vm_compute; tauto |]).
  destruct H.
Qed.

(** X10: after any sequence of operations chosen among the options on
    offer, the two selected values are themselves among the options the
    dropdowns offer: the selected fund is never filtered out of its
    own list. *)
Theorem selection_is_offered (ops : list Op) :
  allOffered initial ops ->
  In (selectedVehicleId (runs ops initial)) vehicleOptions
  /\ In (selectedFundId (runs ops initial))
        (fundOptions (runs ops initial)).
Proof.
  intro H. apply states_options, runs_states; [now left | exact H].
Qed.

Lemma selection_is_offered_witness :
  In "wanye" (fundOptions (runs [VehicleChange "iv2"; FundChange "wanye"]
                                initial)).
Proof.
  apply (@selection_is_offered [VehicleChange "iv2"; FundChange "wanye"]).
  simpl. vm_compute. tauto.
Defined.

(** X11: a change of the vehicle filter to a different value leaves a
    consistent state, whatever the new value, when the selected fund is
    "all" or a fund of the table: the fund is kept if it belongs to the
    new vehicle or the new vehicle is "all", and reset otherwise. *)
Theorem handleVehicleChange_consistent (v : string) (s : State) :
  selectedFundId s = "all" \/ In (selectedFundId s) Spec.fundIds ->
  v <> selectedVehicleId s ->
  consistent (handleVehicleChange v s).
Proof.
  intros Hf Hv. destruct s as [sv sf]. cbn [selectedFundId selectedVehicleId] in *.
  unfold handleVehicleChange. cbn [selectedFundId selectedVehicleId].
  assert (E : negb (v =? sv) = true)
    by (apply Bool.negb_true_iff; now apply String.eqb_neq).
  rewrite E. destruct Hf as [-> | Hin].
  - intro Hne. now elim Hne.
  - rewrite (neq_all (fundIds_not_all Hin)).
    destruct (find_fund_known Hin) as (fund & Hfind & _ & Hid & _).
    rewrite Hfind.
    destruct (String.eqb_spec (Fund.vehicleId fund) v) as [Eo | No];
      destruct (String.eqb_spec v "all") as [Ea | Na]; cbn [negb andb].
    + intros _. exists fund. cbn [selectedFundId selectedVehicleId]. auto.
    + intros _. exists fund. cbn [selectedFundId selectedVehicleId]. auto.
    + intros _. exists fund. cbn [selectedFundId selectedVehicleId]. auto.
    + intro Hne. now elim Hne.
Qed.

Lemma handleVehicleChange_consistent_witness :
  consistent (handleVehicleChange
                "iv2" {| selectedVehicleId := "iv1";
                         selectedFundId := "wanye" |}).
Proof.
  apply (@handleVehicleChange_consistent
           "iv2" {| selectedVehicleId := "iv1"; selectedFundId := "wanye" |}).
  - right. simpl. tauto.
  - discriminate.
Defined.

Lemma dispatched_cases (op : Op) (s : State) :
  (dispatched op s = [] /\ run op s = s)
  \/ dispatched op s = [fireFilterChangeEvent (run op s)].
Proof.
  destruct op as [v | f |]; unfold dispatched, run.
  - unfold handleVehicleChange.
    destruct (negb (v =? selectedVehicleId s)); [right | left]; auto.
  - unfold handleFundChange.
    destruct (negb (f =? selectedFundId s)); [right | left]; auto.
  - right. reflexivity.
Qed.

(** X12: an operation dispatches at most one event; the event carries the
    state the operation leaves; and an operation that changes the state
    always dispatches it.  A change to the value already selected
    dispatches nothing. *)
Theorem changes_are_dispatched (op : Op) (s : State) :
  (run op s <> s -> dispatched op s = [fireFilterChangeEvent (run op s)])
  /\ (forall d, In d (dispatched op s) -> d = fireFilterChangeEvent (run op s))
  /\ (length (dispatched op s) <= 1)%nat
  /\ (dispatched (VehicleChange (selectedVehicleId s)) s = []
      /\ dispatched (FundChange (selectedFundId s)) s = []).
Proof.
  split; [| split; [| split]].
  - intro H. destruct (dispatched_cases op s) as [[_ E] | E];
      [now elim H | exact E].
  - intros d Hd. destruct (dispatched_cases op s) as [[E _] | E];
      rewrite E in Hd; [destruct Hd |].
    destruct Hd as [<- | []]. reflexivity.
  - destruct (dispatched_cases op s) as [[E _] | E]; rewrite E; simpl; lia.
  - unfold dispatched. rewrite !String.eqb_refl. auto.
Qed.

(** X13: the count of active filters is positive exactly when
    hasActiveFilters holds, zero exactly in the default state, and one
    exactly when the plural suffix is empty; clearing the filters always
    brings it to zero. *)
Theorem activeFilterCount_spec (s : State) :
  (hasActiveFilters s = true <-> activeFilterCount s <> 0%nat)
  /\ (activeFilterCount s = 0%nat <-> s = initial)
  /\ (activeFilterCountPlural s = EmptyString <-> activeFilterCount s = 1%nat)
  /\ activeFilterCount (handleClearFilters s) = 0%nat
  /\ hasActiveFilters s
     = ReportsModal.hasActiveFilters (fireFilterChangeEvent s).
Proof.
  destruct s as [sv sf].
  unfold activeFilterCountPlural.
  unfold hasActiveFilters, activeFilterCount,
    initial, ReportsModal.hasActiveFilters, fireFilterChangeEvent.
  cbn [selectedVehicleId selectedFundId Detail.vehicleId Detail.fundId
       handleClearFilters].
  change (negb ("all" =? "all")) with false.
  destruct (String.eqb_spec sv "all") as [-> | Hv];
    destruct (String.eqb_spec sf "all") as [-> | Hf];
    cbv beta iota zeta; cbn [negb orb Nat.eqb];
    repeat split; try congruence; try discriminate; try reflexivity;
    intro H; try discriminate H; try (now elim H);
    try (injection H; intros; congruence).
Qed.

(** X14: [setFilters] with two non-empty ids installs both, dispatches one
    event, carrying them, exactly when the state changes, and is
    idempotent; an empty id leaves its filter as it is.  No check ties
    the fund to the vehicle. *)
Theorem setFilters_spec (v f : string) (s : State) :
  truthy v = true -> truthy f = true ->
  let s' := {| selectedVehicleId := v; selectedFundId := f |} in
  fst (setFilters v f s) = s'
  /\ (s = s' -> snd (setFilters v f s) = [])
  /\ (s <> s' -> snd (setFilters v f s) = [Detail.mk v f])
  /\ setFilters v f s' = (s', [])
  /\ setFilters EmptyString EmptyString s = (s, [])
  /\ fst (setFilters v EmptyString s)
     = {| selectedVehicleId := v; selectedFundId := selectedFundId s |}.
Proof.
  intros Hv Hf s'. destruct s as [sv sf]. subst s'.
  unfold setFilters, fireFilterChangeEvent.
  cbn [selectedVehicleId selectedFundId truthy andb]. rewrite Hv, Hf.
  rewrite !String.eqb_refl. cbn [negb andb fst snd selectedFundId].
  destruct (String.eqb_spec v sv) as [Ev | Nv];
    cbn [negb andb fst snd selectedVehicleId selectedFundId];
    rewrite ?String.eqb_refl;
    destruct (String.eqb_spec f sf) as [Ef | Nf];
    cbn [negb andb fst snd selectedVehicleId selectedFundId];
    rewrite ?String.eqb_refl;
    cbn [negb andb fst snd selectedVehicleId selectedFundId];
    (split; [congruence |]);
    (split; [intro H;
             first [reflexivity | injection H; intros; congruence] |]);
    (split; [intro H; first [congruence | elim H; congruence] |]);
    (split; [reflexivity |]); split; congruence.
Qed.

Lemma setFilters_spec_witness :
  fst (setFilters "iv1" "wanye" initial)
  = {| selectedVehicleId := "iv1"; selectedFundId := "wanye" |}.
Proof.
  apply (@setFilters_spec "iv1" "wanye" initial); reflexivity.
Defined.

End FilterBarMore.

(** * The dashboard *)

Section DashboardProperties.
Import Dashboard.

Lemma NoDup_fst_unique (A B : Type) (l : list (A * B)) (a : A) (x y : B) :
  NoDup (map fst l) -> In (a, x) l -> In (a, y) l -> x = y.
Proof.
  induction l as [| [a0 b0] l IH]; simpl; intros Hnd Hx Hy; [destruct Hx |].
  inversion Hnd as [| ? ? Hnot Hnd']; subst.
  destruct Hx as [Ex | Hx]; destruct Hy as [Ey | Hy].
  - congruence.
  - injection Ex as -> ->. elim Hnot.
    change a with (fst (a, y)). now apply in_map.
  - injection Ey as -> ->. elim Hnot.
    change a with (fst (a, x)). now apply in_map.
  - now apply IH.
Qed.

Lemma NoDup_map_filter (A B : Type) (g : A -> B) (p : A -> bool) (l : list A) :
  NoDup (map g l) -> NoDup (map g (filter p l)).
Proof.
  induction l as [| a l IH]; simpl; intro H; [constructor |].
  inversion H as [| ? ? Hnot Hnd]; subst.
  destruct (p a); simpl; [constructor |]; auto.
  intro Hin. apply Hnot. apply in_map_iff in Hin.
  destruct Hin as (x & Hx & Hf). apply filter_In in Hf.
  apply in_map_iff. exists x. tauto.
Qed.

Lemma In_clearTimeout (id : nat) (t : Timers) (e : nat * Callback) :
  In e (scheduled (clearTimeout id t)) <-> In e (scheduled t) /\ fst e <> id.
Proof.
  unfold clearTimeout. cbn [scheduled]. rewrite filter_In.
  rewrite Bool.negb_true_iff, Nat.eqb_neq. tauto.
Qed.

Lemma start_invariant (c : JsDate.Clock) : invariant (start c).
Proof.
  unfold invariant, start. cbn.
  split; [intros _; exists c; repeat split |].
  split; [discriminate |].
  split; [intro id; split; [intros [] | discriminate] |].
  split; [constructor |]. split; [constructor | lia].
Qed.

Lemma handleFilterChange_invariant (d : Detail.t) (sys : System) :
  invariant sys -> invariant (handleFilterChange d sys).
Proof.
  intros (_ & _ & Hpend & Hnd & Hids & Hnext).
  unfold handleFilterChange.
  set (ts := match pendingTimeout (dashboard sys) with
             | Some id => if Nat.eqb id 0 then timers sys
                          else clearTimeout id (timers sys)
             | None => timers sys
             end).
  assert (Hts_in : forall e, In e (scheduled ts) ->
                             In e (scheduled (timers sys))
                             /\ snd e <> AfterFilterChange).
  { intros [id cb] He. subst ts.
    destruct (pendingTimeout (dashboard sys)) as [p |] eqn:Ep.
    - assert (Hp : In (p, AfterFilterChange) (scheduled (timers sys)))
        by now apply Hpend.
      assert (Hp1 : (1 <= p)%nat)
        by (apply (proj1 (Forall_forall _ _) Hids) in Hp; simpl in Hp; lia).
      destruct (Nat.eqb_spec p 0) as [E0 | _]; [lia |].
      apply In_clearTimeout in He. destruct He as [He Hne]. split; [exact He |].
      simpl in *. intros ->. apply Hne.
      apply Hpend in He. congruence.
    - split; [exact He |]. simpl. intros ->.
      apply Hpend in He. discriminate He. }
  assert (Hts_next : nextId ts = nextId (timers sys)).
  { subst ts. destruct (pendingTimeout (dashboard sys)) as [p |];
      [destruct (Nat.eqb p 0) |]; reflexivity. }
  assert (Hts_nd : NoDup (map fst (scheduled ts))).
  { subst ts. destruct (pendingTimeout (dashboard sys)) as [p |];
      [destruct (Nat.eqb p 0) |]; try exact Hnd.
    unfold clearTimeout. cbn [scheduled]. now apply NoDup_map_filter. }
  unfold setTimeout, invariant. cbn.
  split; [discriminate |].
  split; [intros _ E; now apply app_eq_nil in E; destruct E |].
  split; [| split; [| split]].
  - intro id. rewrite in_app_iff. split.
    + intros [He | [He | []]].
      * apply Hts_in in He. simpl in He. now elim (proj2 He).
      * congruence.
    + intro E. right. left. congruence.
  - rewrite map_app. cbn.
    apply NoDup_app; [exact Hts_nd | repeat constructor; intros [] |].
    intros a Ha [<- | []]. apply in_map_iff in Ha.
    destruct Ha as (e & Ee & He). apply Hts_in in He. destruct He as [He _].
    apply (proj1 (Forall_forall _ _) Hids) in He. rewrite Hts_next in Ee. lia.
  - apply Forall_app. split.
    + apply Forall_forall. intros e He. apply Hts_in in He.
      destruct He as [He _].
      apply (proj1 (Forall_forall _ _) Hids) in He. lia.
    + constructor; [| constructor]. simpl. lia.
  - lia.
Qed.

Lemma refreshData_invariant (sys : System) :
  invariant sys -> invariant (refreshData sys).
Proof.
  intros (_ & _ & Hpend & Hnd & Hids & Hnext).
  unfold refreshData, setTimeout, invariant. cbn.
  split; [discriminate |].
  split; [intros _ E; now apply app_eq_nil in E; destruct E |].
  split; [| split; [| split]].
  - intro id. rewrite in_app_iff. rewrite <- Hpend. split.
    + intros [He | [He | []]]; [exact He | discriminate He].
    + auto.
  - rewrite map_app. cbn.
    apply NoDup_app; [exact Hnd | repeat constructor; intros [] |].
    intros a Ha [<- | []]. apply in_map_iff in Ha.
    destruct Ha as (e & Ee & He).
    apply (proj1 (Forall_forall _ _) Hids) in He. lia.
  - apply Forall_app. split.
    + apply Forall_forall. intros e He.
      apply (proj1 (Forall_forall _ _) Hids) in He. lia.
    + constructor; [| constructor]. simpl. lia.
  - lia.
Qed.

Lemma expire_invariant (id : nat) (c : JsDate.Clock) (sys sys' : System) :
  invariant sys -> step (Expire id c) sys = Some sys' -> invariant sys'.
Proof.
  intros (_ & _ & Hpend & Hnd & Hids & Hnext) Hstep.
  unfold step in Hstep.
  destruct (find (fun e => Nat.eqb (fst e) id) (scheduled (timers sys)))
    as [[id' cb] |] eqn:Ef; [| discriminate Hstep].
  injection Hstep as <-.
  apply find_some in Ef. destruct Ef as [Hin Eid].
  apply Nat.eqb_eq in Eid. simpl in Eid. subst id'.
  unfold invariant. cbn [dashboard timers].
  split; [intros _; exists c; repeat split |].
  split; [discriminate |].
  split; [| split; [| split]].
  - intro x. rewrite In_clearTimeout. cbn [fst].
    unfold callback, loadDashboardData. cbn [pendingTimeout].
    rewrite Hpend. destruct cb.
    + apply Hpend in Hin. split; [intros [E N]; congruence | discriminate].
    + split; [tauto |]. intro E. split; [exact E |]. intros ->.
      apply Hpend in E.
      pose proof (@NoDup_fst_unique _ _ _ _ _ _ Hnd Hin E). discriminate.
  - unfold clearTimeout. cbn [scheduled]. now apply NoDup_map_filter.
  - apply Forall_forall. intros e He. apply In_clearTimeout in He.
    apply (proj1 (Forall_forall _ _) Hids). cbn [nextId clearTimeout]. tauto.
  - exact Hnext.
Qed.

Lemma exec_invariant (events : list Event) :
  forall sys sys', invariant sys -> exec events sys = Some sys' ->
                   invariant sys'.
Proof.
  induction events as [| e events IH]; intros sys sys' Hinv Hex.
  - injection Hex as <-. exact Hinv.
  - simpl in Hex. destruct (step e sys) as [sys1 |] eqn:Es;
      [| discriminate Hex].
    apply (IH sys1 sys'); [| exact Hex].
    destruct e as [d | | id c].
    + injection Es as <-. now apply handleFilterChange_invariant.
    + injection Es as <-. now apply refreshData_invariant.
    + exact (@expire_invariant _ _ _ _ Hinv Es).
Qed.

(** X16: after the first load, whatever filter changes, refresh requests and
    timer expiries follow in whatever order: a dashboard that is not
    loading shows the three views of its current filters; a dashboard
    that is loading has a timer scheduled that will end the loading; a
    filter timer is scheduled only as the pending one, every superseded
    one having been cleared; and once no timer is left the dashboard is
    not loading. *)
Theorem dashboard_settles (c0 : JsDate.Clock) (events : list Event)
        (sys : System) :
  exec events (start c0) = Some sys ->
  (isLoading (dashboard sys) = false -> exists c, loaded c (dashboard sys))
  /\ (isLoading (dashboard sys) = true -> scheduled (timers sys) <> [])
  /\ (forall id, In (id, AfterFilterChange) (scheduled (timers sys)) ->
                 pendingTimeout (dashboard sys) = Some id)
  /\ (scheduled (timers sys) = [] ->
      exists c, isLoading (dashboard sys) = false /\ loaded c (dashboard sys)).
Proof.
  intro Hex.
  destruct (@exec_invariant events _ _ (start_invariant c0) Hex)
    as (Hload & Hbusy & Hpend & _).
  split; [exact Hload |]. split; [exact Hbusy |].
  split; [intros id Hid; now apply Hpend |].
  intro Hnil. destruct (isLoading (dashboard sys)) eqn:El.
  - now elim (Hbusy eq_refl).
  - destruct (Hload eq_refl) as [c Hc]. exists c. auto.
Qed.

Lemma dashboard_settles_witness :
  exists sys,
    exec [FilterChange (Detail.mk "iv1" "all");
          FilterChange (Detail.mk "iv1" "norton");
          Expire 2 Sample.utc] (start Sample.utc) = Some sys
    /\ scheduled (timers sys) = []
    /\ exists c, isLoading (dashboard sys) = false /\ loaded c (dashboard sys).
Proof.
  eexists. split; [reflexivity |]. split; [reflexivity |].
  eapply (@dashboard_settles Sample.utc
            [FilterChange (Detail.mk "iv1" "all");
             FilterChange (Detail.mk "iv1" "norton");
             Expire 2 Sample.utc]); reflexivity.
Defined.

Lemma deliver_ids (details : list Detail.t) :
  forall sys bar,
    (details = [] /\
     currentVehicleId (dashboard sys) = FilterBar.selectedVehicleId bar
     /\ currentFundId (dashboard sys) = FilterBar.selectedFundId bar)
    \/ details = [FilterBarApi.fireFilterChangeEvent bar] ->
    currentVehicleId (dashboard (deliver details sys))
    = FilterBar.selectedVehicleId bar
    /\ currentFundId (dashboard (deliver details sys))
       = FilterBar.selectedFundId bar.
Proof.
  intros sys bar [(-> & H) | ->]; [exact H |].
  unfold deliver, handleFilterChange, setTimeout,
    FilterBarApi.fireFilterChangeEvent.
  cbn. auto.
Qed.

(** X17: with the filter bar wired to the dashboard and both at their
    defaults, after any sequence of operations of the filter bar, with
    any values, the filter ids of the dashboard are the ids selected in
    the filter bar. *)
Theorem dashboard_follows_filter_bar (c : JsDate.Clock)
        (ops : list FilterBar.Op) :
  currentVehicleId (dashboard (snd (operate ops FilterBar.initial (start c))))
  = FilterBar.selectedVehicleId
      (fst (operate ops FilterBar.initial (start c)))
  /\ currentFundId
       (dashboard (snd (operate ops FilterBar.initial (start c))))
     = FilterBar.selectedFundId
         (fst (operate ops FilterBar.initial (start c))).
Proof.
  assert (H : forall bar sys,
            currentVehicleId (dashboard sys) = FilterBar.selectedVehicleId bar
            /\ currentFundId (dashboard sys) = FilterBar.selectedFundId bar ->
            currentVehicleId (dashboard (snd (operate ops bar sys)))
            = FilterBar.selectedVehicleId (fst (operate ops bar sys))
            /\ currentFundId (dashboard (snd (operate ops bar sys)))
               = FilterBar.selectedFundId (fst (operate ops bar sys))).
  { induction ops as [| op ops IH]; intros bar sys Hids; [exact Hids |].
    cbn [operate]. apply IH. apply deliver_ids.
    destruct (dispatched_cases op bar) as [[E1 E2] | E].
    - left. rewrite E2. auto.
    - right. exact E. }
  apply H. split; reflexivity.
Qed.

Lemma string_append_assoc (s t u : string) :
  ((s ++ t) ++ u = s ++ (t ++ u))%string.
Proof. induction s as [| a s IH]; simpl; [reflexivity | now rewrite IH]. Qed.

(** X18: the description reads "Showing all investments" exactly when both
    filters are "all": an id that is not in the tables is left out of
    the description but does not bring that text back. *)
Theorem filterStateDescription_all (this : State) :
  filterStateDescription this = "Showing all investments"
  <-> currentVehicleId this = "all" /\ currentFundId this = "all".
Proof.
  unfold filterStateDescription.
  destruct (String.eqb_spec (currentVehicleId this) "all") as [Ev | Nv];
    destruct (String.eqb_spec (currentFundId this) "all") as [Ef | Nf];
    cbn [andb negb].
  - tauto.
  - split; [| tauto]. intro H.
    destruct (find _ Service.getFunds); cbn in H; discriminate H.
  - split; [| tauto]. intro H.
    destruct (find _ Service.getInvestmentVehicles); cbn in H; discriminate H.
  - split; [| tauto]. intro H.
    destruct (find _ Service.getInvestmentVehicles);
      destruct (find _ Service.getFunds); cbn in H; discriminate H.
Qed.

(** X19: the description of the modal is empty exactly when no filter is
    active; otherwise it names the vehicle id, the fund id, or both in
    that order, separated by a comma. *)
Theorem filterDescription_spec (v f : string) :
  (ReportsModal.filterDescription (Detail.mk v f) = EmptyString
   <-> ReportsModal.hasActiveFilters (Detail.mk v f) = false)
  /\ (v <> "all" -> f <> "all" ->
      ReportsModal.filterDescription (Detail.mk v f)
      = ("Investment Vehicle: " ++ v ++ ", Fund: " ++ f)%string)
  /\ (v <> "all" ->
      ReportsModal.filterDescription (Detail.mk v "all")
      = ("Investment Vehicle: " ++ v)%string)
  /\ (f <> "all" ->
      ReportsModal.filterDescription (Detail.mk "all" f)
      = ("Fund: " ++ f)%string).
Proof.
  unfold ReportsModal.filterDescription, ReportsModal.hasActiveFilters.
  cbn [Detail.vehicleId Detail.fundId].
  change ("all" =? "all") with true.
  split; [| split; [| split]].
  - destruct (String.eqb_spec v "all"); destruct (String.eqb_spec f "all");
      cbn; split; intro H; try reflexivity; discriminate H.
  - intros Hv Hf. rewrite (neq_all' Hv), (neq_all' Hf).
    cbn [negb orb app Dashboard.join fold_left].
    rewrite string_append_assoc. reflexivity.
  - intro Hv. rewrite (neq_all' Hv). reflexivity.
  - intro Hf. rewrite (neq_all' Hf). reflexivity.
Qed.

Lemma filterDescription_spec_witness :
  ReportsModal.filterDescription (Detail.mk "iv1" "norton")
  = "Investment Vehicle: iv1, Fund: norton".
Proof.
  apply (@filterDescription_spec "iv1" "norton"); discriminate.
Defined.

End DashboardProperties.

(** * The series against the metrics, the fund options, the navigation *)

(** X9: with no filter the last point of the series carries the figures
    of the full-portfolio metrics.  Under a filter on a fund or on a
    vehicle of the tables it does not: the series is the portfolio's,
    scaled by a multiplier near one, so its last totalValue is more
    than one and a half times the estimatedValue of the metrics on
    display. *)
Theorem series_end_against_metrics (c : JsDate.Clock) (v f : string) :
  In f Spec.fundIds \/ (f = "all" /\ In v Spec.vehicleIds) ->
  (exists p,
      nth_error (getPerformanceData c "all" "all") 11 = Some p
      /\ Point.totalValue p = Metrics.estimatedValue fullMetrics
      /\ Point.capitalCalled p = Metrics.totalCalled fullMetrics
      /\ Point.tvpi p = Metrics.estimatedTVPI fullMetrics)
  /\ exists m p x y,
      getPortfolioMetrics v f = Own m
      /\ nth_error (getPerformanceData c v f) 11 = Some p
      /\ exact_value (Metrics.estimatedValue m) = Some x
      /\ exact_value (Point.totalValue p) = Some y
      /\ ((3 # 2) * x < y)%Q.
Proof.
  intro H. unfold getPerformanceData. generalize (months c) as ms. intro ms.
  split.
  - eexists. split; [reflexivity |]. repeat split.
  - unfold Spec.fundIds, Spec.vehicleIds in H.
    destruct H as [H | [-> H]];
      repeat (destruct H as [<- | H];
              [do 4 eexists;
               split; [reflexivity |]; split; [reflexivity |];
               split; [vm_compute; reflexivity |];
               split; [vm_compute; reflexivity |];
               vm_compute; reflexivity |]);
      destruct H.
Qed.

Lemma series_end_against_metrics_witness :
  exists m p x y,
    getPortfolioMetrics "iv1" "all" = Own m
    /\ nth_error (getPerformanceData Sample.utc "iv1" "all") 11 = Some p
    /\ exact_value (Metrics.estimatedValue m) = Some x
    /\ exact_value (Point.totalValue p) = Some y
    /\ ((3 # 2) * x < y)%Q.
Proof.
  apply (@series_end_against_metrics Sample.utc "iv1" "all").
  right. simpl. tauto.
Defined.

(** X15: the fund dropdown offers "all" and, besides it, exactly the funds
    of the selected vehicle, or every fund when no vehicle is selected;
    for a vehicle that has no fund it offers "all" alone. *)
Theorem fundOptions_spec (s : FilterBar.State) (f : string) :
  In f (FilterBar.fundOptions s)
  <-> f = "all"
      \/ exists fund,
          In fund getFunds /\ Fund.id fund = f
          /\ (FilterBar.selectedVehicleId s = "all"
              \/ Fund.vehicleId fund = FilterBar.selectedVehicleId s).
Proof.
  unfold FilterBar.fundOptions. cbn [In].
  destruct (String.eqb_spec (FilterBar.selectedVehicleId s) "all")
    as [E | N]; cbn [negb]; rewrite in_map_iff.
  - split.
    + intros [<- | (fund & Hid & Hin)]; [now left |].
      right. exists fund. auto.
    + intros [-> | (fund & Hin & Hid & _)]; [now left |].
      right. exists fund. auto.
  - split.
    + intros [<- | (fund & Hid & Hin)]; [now left |].
      apply filter_In in Hin. destruct Hin as [Hin Hv].
      apply String.eqb_eq in Hv. right. exists fund. auto.
    + intros [-> | (fund & Hin & Hid & [Ha | Hv])]; [now left | now elim N |].
      right. exists fund. split; [exact Hid |].
      apply filter_In. split; [exact Hin |]. now apply String.eqb_eq.
Qed.

Section NavigationProperties.
Import Navigation.

Lemma no_active_item (base cv : string) (l : list MenuItem.t) :
  ~ In cv (map MenuItem.id l) ->
  filter ActiveItem.active
         (map (fun item =>
                 ActiveItem.mk
                   (MenuItem.id item) (MenuItem.label item)
                   (MenuItem.icon item)
                   (MenuItem.id item =? cv)
                   (if MenuItem.id item =? cv
                    then "nav-item active" else "nav-item")
                   (base ++ "/" ++ MenuItem.icon item)%string) l)
  = [].
Proof.
  induction l as [| a l IH]; simpl; [reflexivity |].
  intro H. destruct (String.eqb_spec (MenuItem.id a) cv) as [E | _].
  - elim H. now left.
  - apply IH. intro Hin. apply H. now right.
Qed.

(** X22: whatever the current view, the sidebar lists the menu items in
    their order; at most one of them is active, the one whose id is the
    current view; none is active when the current view is not a menu
    item, as for the help pages; and an item has the class
    "nav-item active" exactly when it is active. *)
Theorem activeMenuItems_spec (base : string) (s : State) :
  map ActiveItem.id (activeMenuItems base s) = map MenuItem.id menuItems
  /\ (In (currentView s) (map MenuItem.id menuItems) ->
      map ActiveItem.id (filter ActiveItem.active (activeMenuItems base s))
      = [currentView s])
  /\ (~ In (currentView s) (map MenuItem.id menuItems) ->
      filter ActiveItem.active (activeMenuItems base s) = [])
  /\ Forall (fun a => ActiveItem.class a
                      = if ActiveItem.active a
                        then "nav-item active" else "nav-item")
            (activeMenuItems base s).
Proof.
  split; [| split; [| split]].
  - unfold activeMenuItems. rewrite map_map. reflexivity.
  - destruct s as [cv col dd]. cbn [currentView]. intro H.
    vm_compute in H.
    repeat (destruct H as [<- | H]; [reflexivity |]). destruct H.
  - intro H. unfold activeMenuItems. now apply no_active_item.
  - unfold activeMenuItems. apply Forall_map. apply Forall_forall.
    intros item _. cbn. reflexivity.
Qed.

Lemma activeMenuItems_spec_witness :
  map ActiveItem.id
      (filter ActiveItem.active
              (activeMenuItems "/icons" (handleNavItemClick "funds" initial)))
  = ["funds"].
Proof.
  apply (@activeMenuItems_spec "/icons" (handleNavItemClick "funds" initial)).
  vm_compute. tauto.
Defined.

(** X23: the label of the current view is "Page" exactly when the view is
    neither a menu item nor a help item; for a help item the label is
    found although no menu item is active. *)
Theorem currentViewLabel_spec (s : State) :
  (currentViewLabel s = "Page"
   <-> ~ In (currentView s)
            (map MenuItem.id menuItems ++ map HelpItem.id helpItems))
  /\ (In (currentView s) (map HelpItem.id helpItems) ->
      currentViewLabel s <> "Page"
      /\ isInProgressView s = true
      /\ forall base,
          filter ActiveItem.active (activeMenuItems base s) = []).
Proof.
  destruct s as [cv col dd].
  assert (Hknown : In cv (map MenuItem.id menuItems
                          ++ map HelpItem.id helpItems) ->
                   currentViewLabel
                     {| currentView := cv; isCollapsed := col;
                        isProfileDropdownOpen := dd |} <> "Page").
  { intro H. vm_compute in H.
    repeat (destruct H as [<- | H]; [vm_compute; discriminate |]).
    destruct H. }
  split.
  - split.
    + intros E Hin. exact (Hknown Hin E).
    + intro Hout. unfold currentViewLabel. cbn [currentView].
      rewrite (@find_unknown _ fst _ cv); [reflexivity |].
      rewrite map_app, !map_map. exact Hout.
  - cbn [currentView]. intro H. split; [| split].
    + apply Hknown. apply in_or_app. now right.
    + vm_compute in H.
      repeat (destruct H as [<- | H]; [reflexivity |]). destruct H.
    + intro base. unfold activeMenuItems. apply no_active_item.
      cbn [currentView]. vm_compute in H. intro Hm. vm_compute in Hm.
      repeat (destruct H as [<- | H];
              [repeat (destruct Hm as [Hm | Hm]; [discriminate Hm |]);
               exact Hm |]).
      destruct H.
Qed.

Lemma currentViewLabel_spec_witness :
  currentViewLabel (handleNavItemClick "support" initial) <> "Page"
  /\ isInProgressView (handleNavItemClick "support" initial) = true
  /\ forall base,
      filter ActiveItem.active
             (activeMenuItems base (handleNavItemClick "support" initial))
      = [].
Proof.
  apply (@currentViewLabel_spec (handleNavItemClick "support" initial)).
  vm_compute. tauto.
Defined.

End NavigationProperties.

(** * The reports opened from the dashboard *)

(** X24: after the first load and any filter changes, refresh requests
    and timer expiries, reports opened while the dashboard is not
    loading show the metrics of the very filter ids they describe;
    reports opened right after a further filter change, before its
    timer expires, pair the new filter ids with the metrics loaded
    before the change. *)
Theorem reports_match_filters (c0 : JsDate.Clock)
        (events : list Dashboard.Event) (sys : Dashboard.System) :
  Dashboard.exec events (Dashboard.start c0) = Some sys ->
  (Dashboard.isLoading (Dashboard.dashboard sys) = false ->
   fst (Dashboard.handleViewReportsClick (Dashboard.dashboard sys))
   = Some (getPortfolioMetrics
             (Detail.vehicleId
                (snd (Dashboard.handleViewReportsClick
                        (Dashboard.dashboard sys))))
             (Detail.fundId
                (snd (Dashboard.handleViewReportsClick
                        (Dashboard.dashboard sys))))))
  /\ forall d,
      Dashboard.handleViewReportsClick
        (Dashboard.dashboard (Dashboard.handleFilterChange d sys))
      = (Dashboard.metrics (Dashboard.dashboard sys), d).
Proof.
  intro Hex. split.
  - intro Hl.
    destruct (@exec_invariant events _ _ (start_invariant c0) Hex)
      as (Hload & _).
    destruct (Hload Hl) as (c & Hm & _). exact Hm.
  - intros [v f]. reflexivity.
Qed.

Lemma reports_match_filters_witness :
  exists sys,
    Dashboard.exec
      [Dashboard.FilterChange (Detail.mk "iv2" "all");
       Dashboard.Expire 1 Sample.utc] (Dashboard.start Sample.utc)
    = Some sys
    /\ fst (Dashboard.handleViewReportsClick (Dashboard.dashboard sys))
       = Some (getPortfolioMetrics "iv2" "all")
    /\ fst (Dashboard.handleViewReportsClick
              (Dashboard.dashboard
                 (Dashboard.handleFilterChange
                    (Detail.mk "all" "wanye") sys)))
       = Some (getPortfolioMetrics "iv2" "all").
Proof.
  eexists. split; [reflexivity |]. split.
  - eapply (@reports_match_filters Sample.utc
              [Dashboard.FilterChange (Detail.mk "iv2" "all");
               Dashboard.Expire 1 Sample.utc]); reflexivity.
  - reflexivity.
Defined.
